(** * book2audio: a shallow embedding of [book2audio.py]

    The development follows the layout of the script:

    - [Py]: the fragments of the Python runtime the script leans on
      ([str.replace], [str.strip], [in], [re.sub] with a character
      class, and the [%] operator applied to a format string and a single
      integer);
    - the data the script handles (EPUB items, books, parsed arguments);
    - a small state-and-exception monad over the operating-system state
      (the set of existing paths) and the trace of what the run has done;
    - [get_epub_metadata], [convert_audio], [process_book] and [main];
    - the properties of the pipeline.

    Strings are [string]s over 8-bit characters; a Python [int] that only
    counts chapters is a [nat]. *)

From Stdlib Require Import Ascii String DecimalString HexString OctalString.
From Stdlib Require Import ZArith NArith Lia List.
From Stdlib Require DecimalNat DecimalFacts.
From stdpp Require Import gmap strings list.

(** ** Exceptions and results *)

(** The exception classes that can occur in a run.  All of them derive
    from Python's [Exception], so [except Exception] catches each one. *)
Inductive exn : Type :=
| TypeError
| ValueError
| OverflowError
| CalledProcessError (returncode : Z)
| FileNotFoundError
| OSError.

Inductive result (A : Type) : Type :=
| Ok (a : A)
| Raise (e : exn).
Arguments Ok {A} a.
Arguments Raise {A} e.

Definition is_ok {A} (r : result A) : bool :=
  match r with Ok _ => true | Raise _ => false end.

(** ** The Python runtime *)

Module Py.

Definition mem (c : ascii) (chars : string) : bool :=
  existsb (Ascii.eqb c) (list_ascii_of_string chars).

(** [sub in s] *)
Fixpoint contains (sub s : string) : bool :=
  String.prefix sub s ||
  match s with
  | EmptyString => false
  | String _ s' => contains sub s'
  end.

(** [s.startswith(p)] *)
Definition startswith (s p : string) : bool := String.prefix p s.

(** [s.replace(old, new)]: the occurrences of [old] are found from left
    to right and do not overlap.  [skip] counts the characters of a
    matched occurrence that are still to be dropped. *)
Fixpoint replace_from (old new s : string) (skip : nat) : string :=
  match s with
  | EmptyString => EmptyString
  | String c s' =>
      match skip with
      | S k => replace_from old new s' k
      | O =>
          if String.prefix old s
          then new +:+ replace_from old new s' (String.length old - 1)
          else String c (replace_from old new s' 0)
      end
  end.

(** With an empty [old], Python inserts [new] before every character and
    at the end. *)
Fixpoint intersperse (new s : string) : string :=
  match s with
  | EmptyString => new
  | String c s' => new +:+ String c (intersperse new s')
  end.

Definition replace (s old new : string) : string :=
  match old with
  | EmptyString => intersperse new s
  | String _ _ => replace_from old new s 0
  end.

(** [s.lstrip], [s.rstrip] and [s.strip] over a set of characters given
    as a predicate. *)
Fixpoint lstrip (p : ascii -> bool) (s : string) : string :=
  match s with
  | EmptyString => EmptyString
  | String c s' => if p c then lstrip p s' else s
  end.

Fixpoint rstrip (p : ascii -> bool) (s : string) : string :=
  match s with
  | EmptyString => EmptyString
  | String c s' =>
      match rstrip p s' with
      | EmptyString => if p c then EmptyString else String c EmptyString
      | r => String c r
      end
  end.

Definition strip_with (p : ascii -> bool) (s : string) : string :=
  rstrip p (lstrip p s).

(** [s.strip(chars)] *)
Definition strip_chars (s chars : string) : string :=
  strip_with (fun c => mem c chars) s.

(** [str.isspace] on the 8-bit characters: TAB, LF, VT, FF, CR, the four
    separators FS..US, SPACE, NEL and NBSP. *)
Definition isspace (c : ascii) : bool :=
  let n := nat_of_ascii c in
  ((9 <=? n) && (n <=? 13)) || ((28 <=? n) && (n <=? 32))
  || (n =? 133) || (n =? 160).

(** [s.strip()] *)
Definition strip (s : string) : string := strip_with isspace s.

(** [re.sub("[chars]", "", s)] *)
Fixpoint remove_chars (chars s : string) : string :=
  match s with
  | EmptyString => EmptyString
  | String c s' =>
      if mem c chars then remove_chars chars s'
      else String c (remove_chars chars s')
  end.

Fixpoint repeat_char (c : ascii) (n : nat) : string :=
  match n with
  | O => EmptyString
  | S k => String c (repeat_char c k)
  end.

Fixpoint take (n : nat) (s : string) : string :=
  match n, s with
  | S k, String c s' => String c (take k s')
  | _, _ => EmptyString
  end.

Fixpoint drop (n : nat) (s : string) : string :=
  match n, s with
  | S k, String _ s' => drop k s'
  | _, _ => s
  end.

(** [str(n)] *)
Definition str_of_nat (n : nat) : string :=
  NilZero.string_of_uint (Nat.to_uint n).

Definition oct_of_nat (n : nat) : string :=
  match N.of_nat n with
  | N0 => "0"
  | Npos p => OctalString.Raw.of_pos p ""
  end.

Definition hex_of_nat (n : nat) : string :=
  match N.of_nat n with
  | N0 => "0"
  | Npos p => HexString.Raw.of_pos p ""
  end.

Definition upper (c : ascii) : ascii :=
  let n := nat_of_ascii c in
  if (97 <=? n) && (n <=? 122) then ascii_of_nat (n - 32) else c.

Fixpoint map_string (f : ascii -> ascii) (s : string) : string :=
  match s with
  | EmptyString => EmptyString
  | String c s' => String (f c) (map_string f s')
  end.

End Py.

(** ** The [%] operator: [template % n] for a format string and one [int]

    The right operand is a bare integer, so the formatter has exactly one
    argument to hand out and no mapping.  The format string is scanned
    once, left to right; [pstate] is the position inside the directive
    being read. *)

Module Format.

Record fmt_flags : Type := mk_flags
  { F_LJUST : bool; F_SIGN : bool; F_BLANK : bool; F_ALT : bool; F_ZERO : bool }.

Definition no_flags : fmt_flags := mk_flags false false false false false.

Definition is_flag (c : ascii) : bool := Py.mem c "-+ #0".

Definition set_flag (f : fmt_flags) (c : ascii) : fmt_flags :=
  if Ascii.eqb c "-" then mk_flags true (F_SIGN f) (F_BLANK f) (F_ALT f) (F_ZERO f)
  else if Ascii.eqb c "+" then mk_flags (F_LJUST f) true (F_BLANK f) (F_ALT f) (F_ZERO f)
  else if Ascii.eqb c " " then mk_flags (F_LJUST f) (F_SIGN f) true (F_ALT f) (F_ZERO f)
  else if Ascii.eqb c "#" then mk_flags (F_LJUST f) (F_SIGN f) (F_BLANK f) true (F_ZERO f)
  else if Ascii.eqb c "0" then mk_flags (F_LJUST f) (F_SIGN f) (F_BLANK f) (F_ALT f) true
  else f.

Definition is_digit (c : ascii) : bool :=
  let n := nat_of_ascii c in (48 <=? n) && (n <=? 57).

Definition digit_val (c : ascii) : N := N.of_nat (nat_of_ascii c - 48).

(** [PY_SSIZE_T_MAX] and [INT_MAX] of the 64-bit interpreter. *)
Definition PY_SSIZE_T_MAX : N := 9223372036854775807.
Definition INT_MAX : N := 2147483647.

Inductive pstate : Type :=
| PText                                           (* outside a directive *)
| PStart                                          (* just after [%] *)
| PFlags (f : fmt_flags)                          (* reading flags *)
| PWidth (f : fmt_flags) (w : N)                  (* reading width digits *)
| PAfterWidth (f : fmt_flags) (w : N)             (* after a [*] width *)
| PDot (f : fmt_flags) (w : option N)             (* just after [.] *)
| PPrec (f : fmt_flags) (w : option N) (p : N)    (* reading precision digits *)
| PAfterPrec (f : fmt_flags) (w : option N) (p : N)  (* after a [*] precision *)
| PConv (f : fmt_flags) (w p : option N).         (* after [h], [l] or [L] *)

Definition is_sra (c : ascii) : bool := Py.mem c "sra".
Definition is_int_conv (c : ascii) : bool := Py.mem c "iduoxX".
Definition is_float_conv (c : ascii) : bool := Py.mem c "eEfFgG".
Definition is_oxX (c : ascii) : bool := Py.mem c "oxX".

(** The integer conversions: the digits in the base of the conversion,
    zero-filled up to the precision, behind the base marker when the
    alternate form is asked for; [X] upper-cases the whole. *)
Definition format_long (alt : bool) (p : option N) (c : ascii) (n : nat)
  : result string :=
  if match p with Some k => (INT_MAX - 3 <? k)%N | None => false end
  then Raise OverflowError
  else
    let digits :=
      if Ascii.eqb c "o" then Py.oct_of_nat n
      else if Ascii.eqb c "x" || Ascii.eqb c "X" then Py.hex_of_nat n
      else Py.str_of_nat n in
    let numdigits := String.length digits in
    let filled :=
      match p with
      | Some k => Py.repeat_char "0" (N.to_nat k - numdigits) +:+ digits
      | None => digits
      end in
    let marked :=
      if alt && is_oxX c
      then String "0" (String (if Ascii.eqb c "o" then "o"%char else "x"%char) filled)
      else filled in
    Ok (if Ascii.eqb c "X" then Py.map_string Py.upper marked else marked).

(** Sign, base marker and padding around a converted value [str].
    [sign] tells whether the conversion is numeric. *)
Definition output (f : fmt_flags) (w p : option N) (c : ascii)
           (sign : bool) (str : string) : string :=
  let fill : ascii := if sign && F_ZERO f then "0"%char else " "%char in
  let zero_fill := sign && F_ZERO f in
  let str :=
    match p with
    | Some k => if is_sra c then Py.take (N.to_nat k) str else str
    | None => str
    end in
  let len := String.length str in
  let signchar : string :=
    if sign then (if F_SIGN f then "+" else if F_BLANK f then " " else "")
    else "" in
  let sign := sign && (F_SIGN f || F_BLANK f) in
  let width := Nat.max (match w with Some k => N.to_nat k | None => 0 end) len in
  let width := if sign && (len <? width) then width - 1 else width in
  let alt := F_ALT f && is_oxX c in
  let marker := if alt then Py.take 2 str else "" in
  let body := if alt then Py.drop 2 str else str in
  let width := if alt then width - 2 else width in
  let len := if alt then len - 2 else len in
  let lpad := if (len <? width) && negb (F_LJUST f) then width - len else 0 in
  let width := if (len <? width) && negb (F_LJUST f) then len else width in
  (if zero_fill then signchar +:+ marker else "")
    +:+ Py.repeat_char fill lpad
    +:+ (if zero_fill then "" else signchar +:+ marker)
    +:+ body
    +:+ Py.repeat_char " " (width - len).

Section WithExternalConversions.

(** The floating-point conversions print [float(n)] through the C
    library, and [%c] yields the character of code point [n], which
    lies outside the 8-bit alphabet from 256 on.  Both are supplied by
    the environment: the text of the converted value, before padding. *)
Variable extern_conv : ascii -> bool -> option N -> nat -> result string.

(** A conversion character has been read: take the argument, convert
    it, pad it. *)
Definition convert (f : fmt_flags) (w p : option N) (c : ascii)
           (have_arg : bool) (n : nat) : result string :=
  if negb have_arg then Raise TypeError      (* not enough arguments *)
  else if is_sra c then Ok (output f w p c false (Py.str_of_nat n))
  else if is_int_conv c then
    match format_long (F_ALT f) p c n with
    | Ok str => Ok (output f w p c true str)
    | Raise e => Raise e
    end
  else if is_float_conv c then
    match extern_conv c (F_ALT f) p n with
    | Ok str => Ok (output f w p c true str)
    | Raise e => Raise e
    end
  else if Ascii.eqb c "c" then
    if (N.of_nat n <? 256)%N
    then Ok (output f w p c false (String (ascii_of_nat n) ""))
    else if (N.of_nat n <? 1114112)%N then
      match extern_conv c (F_ALT f) p n with
      | Ok str => Ok (output f w p c false str)
      | Raise e => Raise e
      end
    else Raise OverflowError
  else Raise ValueError.                     (* unsupported format character *)

(** One step of the scan: the state and the character read give the
    next state, whether the argument is still available, and the text
    written. *)
Definition step_result : Type := result (pstate * bool * string).

Definition after_conv (r : result string) : step_result :=
  match r with
  | Ok out => Ok (PText, false, out)
  | Raise e => Raise e
  end.

Definition on_length (f : fmt_flags) (w p : option N) (c : ascii)
           (have_arg : bool) (n : nat) : step_result :=
  if Py.mem c "hlL" then Ok (PConv f w p, have_arg, "")
  else after_conv (convert f w p c have_arg n).

Definition on_prec (f : fmt_flags) (w : option N) (c : ascii)
           (have_arg : bool) (n : nat) : step_result :=
  if Ascii.eqb c "." then Ok (PDot f w, have_arg, "")
  else on_length f w None c have_arg n.

Definition on_width (f : fmt_flags) (c : ascii)
           (have_arg : bool) (n : nat) : step_result :=
  if Ascii.eqb c "*" then
    if negb have_arg then Raise TypeError
    else if (PY_SSIZE_T_MAX <? N.of_nat n)%N then Raise OverflowError
    else Ok (PAfterWidth f (N.of_nat n), false, "")
  else if is_digit c then Ok (PWidth f (digit_val c), have_arg, "")
  else on_prec f None c have_arg n.

Definition on_flag (f : fmt_flags) (c : ascii)
           (have_arg : bool) (n : nat) : step_result :=
  if is_flag c then Ok (PFlags (set_flag f c), have_arg, "")
  else on_width f c have_arg n.

Definition step (st : pstate) (have_arg : bool) (n : nat) (c : ascii)
  : step_result :=
  match st with
  | PText =>
      if Ascii.eqb c "%" then Ok (PStart, have_arg, "")
      else Ok (PText, have_arg, String c "")
  | PStart =>
      if Ascii.eqb c "%" then Ok (PText, have_arg, "%")
      else if Ascii.eqb c "(" then Raise TypeError   (* format requires a mapping *)
      else on_flag no_flags c have_arg n
  | PFlags f => on_flag f c have_arg n
  | PWidth f w =>
      if is_digit c then
        if ((PY_SSIZE_T_MAX - digit_val c) / 10 <? w)%N
        then Raise ValueError                        (* width too big *)
        else Ok (PWidth f (w * 10 + digit_val c)%N, have_arg, "")
      else on_prec f (Some w) c have_arg n
  | PAfterWidth f w => on_prec f (Some w) c have_arg n
  | PDot f w =>
      if Ascii.eqb c "*" then
        if negb have_arg then Raise TypeError
        else if (INT_MAX <? N.of_nat n)%N then Raise OverflowError
        else Ok (PAfterPrec f w (N.of_nat n), false, "")
      else if is_digit c then Ok (PPrec f w (digit_val c), have_arg, "")
      else on_length f w (Some 0%N) c have_arg n
  | PPrec f w p =>
      if is_digit c then
        if ((INT_MAX - digit_val c) / 10 <? p)%N
        then Raise ValueError                        (* precision too big *)
        else Ok (PPrec f w (p * 10 + digit_val c)%N, have_arg, "")
      else on_length f w (Some p) c have_arg n
  | PAfterPrec f w p => on_length f w (Some p) c have_arg n
  | PConv f w p => after_conv (convert f w p c have_arg n)
  end.

(** The scan.  At the end of the string, a directive left open is an
    "incomplete format", and an argument nobody took is "not all
    arguments converted". *)
Fixpoint scan (st : pstate) (have_arg : bool) (n : nat) (s : string)
  : result string :=
  match s with
  | EmptyString =>
      match st with
      | PText => if have_arg then Raise TypeError else Ok ""
      | _ => Raise ValueError
      end
  | String c s' =>
      match step st have_arg n c with
      | Raise e => Raise e
      | Ok (st', have_arg', out) =>
          match scan st' have_arg' n s' with
          | Raise e => Raise e
          | Ok rest => Ok (out +:+ rest)
          end
      end
  end.

(** [template % n] *)
Definition percent (template : string) (n : nat) : result string :=
  scan PText true n template.

End WithExternalConversions.

End Format.

(** ** The data of the script *)

(** An item of the EPUB container, as [ebooklib] hands it out:
    [item.get_type()] and [item.get_content()]. *)
Record item : Type := mk_item
  { get_type : nat; get_content : string }.

(** [ebooklib.ITEM_DOCUMENT], written [9] in the script. *)
Definition ITEM_DOCUMENT : nat := 9.

(** A parsed book.  [dc_title] and [dc_creator] are the values that
    [book.get_metadata("DC", ...)] lists (the first component of each
    pair; the attribute dictionaries are not used by the script). *)
Record book : Type := mk_book
  { dc_title : list string;
    dc_creator : list string;
    get_items : list item }.

(** The namespace that [argparse] returns.  An option that was not given
    is [None]. *)
Record args : Type := mk_args
  { files : list string;
    author : option string;
    title : option string;
    format : string;
    filename_format : string;
    verbose : bool }.

(** The values [--format] accepts. *)
Definition format_choices : list string :=
  [".m4a"; ".mp3"; ".wav"; ".aiff"; "m4a"; "mp3"; "wav"; "aiff"].

Definition default_filename_format : string :=
  "${Author}-${Title} - Chapter %02d.${ext}".

(** What the script prints, one constructor per [print] or [log] call of
    the source, with the values interpolated into the text. *)
Inductive message : Type :=
| InfoStarting (epub_file : string)
    (* [INFO] Starting processing for: {epub_file} *)
| InfoAuthor (author : string)
    (* [INFO] Identified Author: {author} *)
| InfoTitle (title : string)
    (* [INFO] Identified Title: {title} *)
| InfoProcessing (chapter_num : nat)
    (* [INFO] Processing Chapter {chapter_num}... *)
| InfoConverting (input_file output_file ext : string)
    (* [INFO] Converting {input_file} to {output_file} ({ext}) *)
| ErrNoFile (filepath : string)
    (* [ERROR] File not found: {filepath} *)
| ErrRead (filepath : string) (e : exn)
    (* [ERROR] Could not read EPUB {filepath}: {e} *)
| ErrChapter (chapter_num : nat) (e : exn)
    (* [ERROR] TTS or Conversion failed for chapter {chapter_num}: {e} *)
| ErrConvert (ext : string)
    (* [ERROR] Failed to convert to {ext}. Is ffmpeg installed? *)
| ErrNoFfmpeg.
    (* [ERROR] ffmpeg not found. Please install it ... for conversions. *)

(** What a run does to the outside world, in order. *)
Inductive event : Type :=
| Print (m : message)
| Run (argv : list string)        (* subprocess.run(argv, check=True) *)
| TempFile (name : string)        (* tempfile.NamedTemporaryFile(delete=False) *)
| Move (src dst : string)         (* shutil.move(src, dst) *)
| Remove (path : string).         (* os.remove(path) *)

(** ** State and exceptions *)

Section Pipeline.

(** Whatever the operating system holds besides the names of the
    existing files: their contents, the installed programs, ... *)
Variable E : Type.

Record os_state : Type := mk_os
  { paths : gset string; hidden : E }.

Record state : Type := mk_state
  { os : os_state; trace : list event }.

(** A computation: it may raise, and in either case leaves a state. *)
Definition M (A : Type) : Type := state -> result A * state.

Definition ret {A} (a : A) : M A := fun st => (Ok a, st).

Definition raise {A} (e : exn) : M A := fun st => (Raise e, st).

Definition bind {A B} (m : M A) (k : A -> M B) : M B :=
  fun st =>
    match m st with
    | (Ok a, st') => k a st'
    | (Raise e, st') => (Raise e, st')
    end.

(** [try: m except ...: h e]; the handler re-raises what it does not
    handle. *)
Definition try_except {A} (m : M A) (h : exn -> M A) : M A :=
  fun st =>
    match m st with
    | (Ok a, st') => (Ok a, st')
    | (Raise e, st') => h e st'
    end.

Notation "x <- m ;; k" := (bind m (fun x => k))
  (at level 100, m at next level, right associativity).
Notation "m ;; k" := (bind m (fun _ => k))
  (at level 100, right associativity).

Definition emit (ev : event) : M unit :=
  fun st => (Ok tt, mk_state (os st) (trace st ++ [ev])).

Definition print (m : message) : M unit := emit (Print m).

(** [log(message, verbose)] *)
Definition log (m : message) (verbose : bool) : M unit :=
  if verbose then print m else ret tt.

(** *** The environment *)

(** [clean_html]: BeautifulSoup's text extraction. *)
Variable clean_html : string -> string.

(** [epub.read_epub(filepath)] *)
Variable read_epub : string -> os_state -> result book.

(** Starting an external program: [None] when the executable is not
    found, otherwise the exit status and what the program left behind. *)
Variable spawn : list string -> os_state -> option (Z * os_state).

(** The name [tempfile] picks for a new file with the given suffix. *)
Variable tempname : string -> os_state -> string.

(** The conversions of [%] that the formatter delegates. *)
Variable extern_conv : ascii -> bool -> option N -> nat -> result string.

(** [os.path.exists(path)] *)
Definition os_path_exists (path : string) : M bool :=
  fun st => (Ok (bool_decide (path ∈ paths (os st))), st).

(** [os.remove(path)] *)
Definition os_remove (path : string) : M unit :=
  fun st =>
    if bool_decide (path ∈ paths (os st))
    then (Ok tt, mk_state (mk_os (paths (os st) ∖ {[path]}) (hidden (os st)))
                          (trace st ++ [Remove path]))
    else (Raise FileNotFoundError, st).

(** [shutil.move(src, dst)] *)
Definition shutil_move (src dst : string) : M unit :=
  fun st =>
    if bool_decide (src ∈ paths (os st))
    then (Ok tt, mk_state (mk_os (paths (os st) ∖ {[src]} ∪ {[dst]}) (hidden (os st)))
                          (trace st ++ [Move src dst]))
    else (Raise FileNotFoundError, st).

(** [tempfile.NamedTemporaryFile(suffix=suffix, delete=False).name]: the
    file is created and stays. *)
Definition NamedTemporaryFile (suffix : string) : M string :=
  fun st =>
    let name := tempname suffix (os st) in
    (Ok name, mk_state (mk_os (paths (os st) ∪ {[name]}) (hidden (os st)))
                       (trace st ++ [TempFile name])).

(** [subprocess.run(argv, check=True)] *)
Definition subprocess_run (argv : list string) : M unit :=
  fun st =>
    match spawn argv (os st) with
    | None => (Raise FileNotFoundError, mk_state (os st) (trace st ++ [Run argv]))
    | Some (rc, os') =>
        (if (rc =? 0)%Z then Ok tt else Raise (CalledProcessError rc),
         mk_state os' (trace st ++ [Run argv]))
    end.

Definition lift {A} (r : result A) : M A := fun st => (r, st).

(** *** [get_epub_metadata] *)

Definition get_epub_metadata (b : book) : string * string :=
  let title := match dc_title b with t :: _ => t | [] => "" end in
  let author := match dc_creator b with c :: _ => c | [] => "" end in
  (author, title).

(** The truth value of a string and of an optional string in a Python
    condition: [None] and the empty string are false. *)
Definition truthy (s : string) : bool := negb (String.eqb s "").

Definition truthy_opt (o : option string) : bool :=
  match o with Some s => truthy s | None => false end.

(** [o if o else alt] *)
Definition if_else_opt (o : option string) (alt : string) : string :=
  match o with
  | Some s => if truthy s then s else alt
  | None => alt
  end.

(** [s if s else alt] *)
Definition if_else (s alt : string) : string :=
  if truthy s then s else alt.

(** The names the script settles on, lines 96 to 105. *)
Definition identify_author (a : args) (b : book) : string :=
  let meta_author := fst (get_epub_metadata b) in
  if_else_opt (author a) (if_else meta_author "Unknown Author").

Definition identify_title (a : args) (b : book) : string :=
  let meta_title := snd (get_epub_metadata b) in
  if_else_opt (title a) (if_else meta_title "Unknown Title").

(** The character class of the [re.sub] calls of lines 111 and 112:
    backslash, slash, star, question mark, colon, double quote, the two
    angle brackets and bar. *)
Definition unsafe_chars : string :=
  "\/*?:" +:+ String (ascii_of_nat 34) "<>|".

Definition safe_name (s : string) : string := Py.remove_chars unsafe_chars s.

(** *** The file name of a chapter, lines 128 to 137 *)

Definition extension (fmt : string) : string :=
  if Py.startswith fmt "." then fmt else "." +:+ fmt.

Definition render_filename (fmt filename_format safe_author safe_title : string)
           (chapter_num : nat) : result string :=
  let ext := extension fmt in
  let filename_template :=
    Py.replace (Py.replace filename_format "${Author}" safe_author)
               "${Title}" safe_title in
  match Format.percent extern_conv filename_template chapter_num with
  | Raise e => Raise e
  | Ok final_filename =>
      Ok (if Py.contains "${ext}" final_filename
          then Py.replace final_filename "${ext}" (Py.strip_chars ext ".")
          else final_filename +:+ ext)
  end.

(** *** [convert_audio] *)

Definition ffmpeg_handler (ext : string) (e : exn) : M unit :=
  match e with
  | CalledProcessError _ => print (ErrConvert ext)
  | FileNotFoundError => print ErrNoFfmpeg
  | _ => raise e
  end.

(** What the chain of tests on [ext] adds to the command line; [None] is
    the [.aiff] branch, which runs no command. *)
Definition ffmpeg_options (ext : string) : option (list string) :=
  if String.eqb ext ".mp3" then Some ["-ac"; "1"; "-libmp3lame"; "-q:a"; "5"]
  else if String.eqb ext ".m4a" then Some ["-c:a"; "aac"; "-b:a"; "128k"]
  else if String.eqb ext ".wav" then Some ["-ar"; "44100"]
  else if String.eqb ext ".aiff" then None
  else Some [].

Definition convert_audio (input_file output_file ext : string) (verbose : bool)
  : M unit :=
  log (InfoConverting input_file output_file ext) verbose ;;
  let cmd := ["ffmpeg"; "-y"; "-i"; input_file] in
  match ffmpeg_options ext with
  | None => shutil_move input_file output_file
  | Some options =>
      let cmd := cmd ++ options ++ [output_file] in
      try_except (subprocess_run cmd) (ffmpeg_handler ext)
  end.

(** *** [process_book] *)

(** The text of an item, line 119. *)
Definition item_text (it : item) : string :=
  Py.strip (clean_html (get_content it)).

(** The body of the loop for an item that passed both tests, lines 125
    to 154. *)
Definition process_chapter (a : args) (safe_author safe_title : string)
           (chapter_num : nat) (text : string) : M unit :=
  log (InfoProcessing chapter_num) (verbose a) ;;
  let ext := extension (format a) in
  final_filename <-
    lift (render_filename (format a) (filename_format a)
                          safe_author safe_title chapter_num) ;;
  temp_aiff <- NamedTemporaryFile ".aiff" ;;
  try_except
    (subprocess_run ["say"; "-o"; temp_aiff; text] ;;
     convert_audio temp_aiff final_filename ext (verbose a) ;;
     still_there <- os_path_exists temp_aiff ;;
     if still_there then os_remove temp_aiff else ret tt)
    (fun e => print (ErrChapter chapter_num e)).

(** The loop over [book.get_items()], lines 115 to 156. *)
Fixpoint process_items (a : args) (safe_author safe_title : string)
         (items : list item) (chapter_num : nat) : M unit :=
  match items with
  | [] => ret tt
  | it :: rest =>
      if get_type it =? ITEM_DOCUMENT then
        let text := item_text it in
        if String.length text <? 100
        then process_items a safe_author safe_title rest chapter_num
        else
          process_chapter a safe_author safe_title chapter_num text ;;
          process_items a safe_author safe_title rest (S chapter_num)
      else process_items a safe_author safe_title rest chapter_num
  end.

Definition process_book (filepath : string) (a : args) : M unit :=
  found <- os_path_exists filepath ;;
  if negb found then print (ErrNoFile filepath)
  else
    fun st =>
      match read_epub filepath (os st) with
      | Raise e => print (ErrRead filepath e) st
      | Ok b =>
          (let author := identify_author a b in
           let title := identify_title a b in
           log (InfoAuthor author) (verbose a) ;;
           log (InfoTitle title) (verbose a) ;;
           let safe_author := safe_name author in
           let safe_title := safe_name title in
           process_items a safe_author safe_title (get_items b) 1) st
      end.

(** *** [main], after the arguments are parsed *)

Definition normalize_format (a : args) : args :=
  if Py.startswith (format a) "." then a
  else mk_args (files a) (author a) (title a) ("." +:+ format a)
               (filename_format a) (verbose a).

Fixpoint for_files (a : args) (epub_files : list string) : M unit :=
  match epub_files with
  | [] => ret tt
  | epub_file :: rest =>
      log (InfoStarting epub_file) (verbose a) ;;
      process_book epub_file a ;;
      for_files a rest
  end.

Definition main (a : args) : M unit :=
  let a := normalize_format a in
  for_files a (files a).

End Pipeline.

Arguments mk_os {E} paths hidden.
Arguments paths {E} o.
Arguments hidden {E} o.
Arguments mk_state {E} os trace.
Arguments os {E} s.
Arguments trace {E} s.
Arguments ret {E A} a st.
Arguments raise {E A} e st.
Arguments bind {E A B} m k st.
Arguments try_except {E A} m h st.
Arguments lift {E A} r st.
Arguments emit {E} ev st.
Arguments print {E} m st.
Arguments log {E} m verbose st.
Arguments os_path_exists {E} path st.
Arguments os_remove {E} path st.
Arguments shutil_move {E} src dst st.
Arguments NamedTemporaryFile {E} tempname suffix st.
Arguments subprocess_run {E} spawn argv st.
Arguments ffmpeg_handler {E} ext e st.
Arguments convert_audio {E} spawn input_file output_file ext verbose st.
Arguments process_chapter {E} spawn tempname extern_conv a safe_author safe_title
  chapter_num text st.
Arguments process_items {E} clean_html spawn tempname extern_conv a safe_author
  safe_title items chapter_num st.
Arguments process_book {E} clean_html read_epub spawn tempname extern_conv
  filepath a st.
Arguments for_files {E} clean_html read_epub spawn tempname extern_conv a
  epub_files st.
Arguments main {E} clean_html read_epub spawn tempname extern_conv a st.

Notation "x <- m ;; k" := (bind m (fun x => k))
  (at level 100, m at next level, right associativity).
Notation "m ;; k" := (bind m (fun _ => k))
  (at level 100, right associativity).

(** * The vocabulary of the properties *)

(** The extension with its leading dot stripped, in the words of the
    specification (the script itself strips every dot at both ends). *)
Definition without_leading_dot (ext : string) : string :=
  match ext with
  | String "." rest => rest
  | _ => ext
  end.

(** A format string in which every percent sign belongs to a doubled
    percent sign; [pending] tells that the first half of a pair was just
    read. *)
Fixpoint only_escapes (pending : bool) (s : string) : bool :=
  match s with
  | EmptyString => negb pending
  | String c s' =>
      if pending then Ascii.eqb c "%" && only_escapes false s'
      else if Ascii.eqb c "%" then only_escapes true s'
      else only_escapes false s'
  end.

(** The items that become chapters: documents whose text has at least 100
    characters; [chapters] lists their texts in the order of the book. *)
Definition is_chapter (clean_html : string -> string) (it : item) : bool :=
  (get_type it =? ITEM_DOCUMENT)
  && negb (String.length (item_text clean_html it) <? 100).

Definition chapters (clean_html : string -> string) (items : list item)
  : list string :=
  map (item_text clean_html) (List.filter (is_chapter clean_html) items).

(** [enumerate(texts, k)] *)
Definition numbered (k : nat) (texts : list string) : list (nat * string) :=
  combine (seq k (length texts)) texts.

(** The loop body run on each numbered chapter in turn; an exception that
    leaves the body ends the sequence. *)
Fixpoint run_chapters {E : Type}
         (spawn : list string -> os_state E -> option (Z * os_state E))
         (tempname : string -> os_state E -> string)
         (extern_conv : ascii -> bool -> option N -> nat -> result string)
         (a : args) (safe_author safe_title : string)
         (l : list (nat * string)) : M E unit :=
  match l with
  | [] => ret tt
  | (chapter_num, text) :: rest =>
      process_chapter spawn tempname extern_conv a safe_author safe_title
                      chapter_num text ;;
      run_chapters spawn tempname extern_conv a safe_author safe_title rest
  end.

(** The chapter numbers announced by the [Processing Chapter] lines of a
    trace. *)
Definition announces (ev : event) : option nat :=
  match ev with
  | Print (InfoProcessing k) => Some k
  | _ => None
  end.

Definition announced (tr : list event) : list nat := omap announces tr.

(** The texts handed to [say] in a trace. *)
Definition say_text (ev : event) : option string :=
  match ev with
  | Run (prog :: rest) =>
      if String.eqb prog "say"
      then match rest with [_; _; text] => Some text | _ => None end
      else None
  | _ => None
  end.

Definition said (tr : list event) : list string := omap say_text tr.

(** The chapter numbers that the error lines of a trace mention. *)
Definition failure_of (ev : event) : option nat :=
  match ev with
  | Print (ErrChapter k _) => Some k
  | _ => None
  end.

Definition failed_chapters (tr : list event) : list nat := omap failure_of tr.

(** The temporary file of a chapter that starts in state [st], the
    operating system once that file is created, and the command line of
    the synthesis. *)
Definition temp_of {E : Type} (tempname : string -> os_state E -> string)
           (st : state E) : string :=
  tempname ".aiff" (os st).

Definition with_temp {E : Type} (tempname : string -> os_state E -> string)
           (st : state E) : os_state E :=
  mk_os (paths (os st) ∪ {[temp_of tempname st]}) (hidden (os st)).

Definition say_argv (temp_aiff text : string) : list string :=
  ["say"; "-o"; temp_aiff; text].

Definition ffmpeg_argv (input_file output_file : string) (options : list string)
  : list string :=
  ["ffmpeg"; "-y"; "-i"; input_file] ++ options ++ [output_file].

(** The state with more events in its trace, and what is left once the
    temporary file, if it is still there, is removed (lines 148 and 149). *)
Definition extend {E : Type} (st : state E) (evs : list event) : state E :=
  mk_state (os st) (trace st ++ evs).

Definition cleanup {E : Type} (temp_aiff : string) (st : state E) : state E :=
  if bool_decide (temp_aiff ∈ paths (os st))
  then mk_state (mk_os (paths (os st) ∖ {[temp_aiff]}) (hidden (os st)))
                (trace st ++ [Remove temp_aiff])
  else st.

(** What [log] adds to the trace. *)
Definition logged (m : message) (verbose : bool) : list event :=
  if verbose then [Print m] else [].

(** What [process_book] has logged when the first chapter starts. *)
Definition preamble (a : args) (b : book) : list event :=
  logged (InfoAuthor (identify_author a b)) (verbose a)
  ++ logged (InfoTitle (identify_title a b)) (verbose a)
  ++ logged (InfoProcessing 1) (verbose a).

(** ** A sample environment

    A [%] operator whose delegated conversions all fail, temporary names
    [/tmp/tmp0.aiff], [/tmp/tmp1.aiff], ... of which the first unused one
    is taken, a text of one hundred characters, and external programs that
    count the calls of [say]: [say] exits with status 1 on the calls that
    [say_fails] selects, and [ffmpeg] is missing ([None]) or writes its
    last argument and exits with the given status. *)
Definition sample_conv (c : ascii) (alt : bool) (p : option N) (n : nat)
  : result string := Raise ValueError.

Fixpoint unused_name (fuel n : nat) (suffix : string) (ps : gset string)
  : string :=
  let name := "/tmp/tmp" +:+ Py.str_of_nat n +:+ suffix in
  match fuel with
  | O => name
  | S fuel' =>
      if bool_decide (name ∈ ps) then unused_name fuel' (S n) suffix ps
      else name
  end.

Definition sample_tempname (suffix : string) (o : os_state nat) : string :=
  unused_name (size (paths o)) 0 suffix (paths o).

Definition sample_text : string :=
  "It was a bright cold day in April, and the clocks were striking thirteen, as the story slowly began.".

Definition sample_spawn (say_fails : nat -> bool) (ffmpeg_status : option Z)
           (argv : list string) (o : os_state nat) : option (Z * os_state nat) :=
  match argv with
  | "say" :: _ =>
      let k := S (hidden o) in
      Some (if say_fails k then 1%Z else 0%Z, mk_os (paths o) k)
  | "ffmpeg" :: rest =>
      match ffmpeg_status with
      | None => None
      | Some rc =>
          Some (rc, mk_os (paths o ∪ {[List.last rest ""]}) (hidden o))
      end
  | _ => None
  end.

(** No external program is installed. *)
Definition nothing_installed (argv : list string) (o : os_state nat)
  : option (Z * os_state nat) := None.

(** A [say] that exits with status 0 but leaves no file at the path it was
    given (and no other program). *)
Definition forgetful_say (argv : list string) (o : os_state nat)
  : option (Z * os_state nat) :=
  match argv with
  | "say" :: _ :: temp_aiff :: _ =>
      Some (0%Z, mk_os (paths o ∖ {[temp_aiff]}) (hidden o))
  | _ => None
  end.

Definition sample_book (n_chapters : nat) : book :=
  mk_book ["Dune"] ["Frank Herbert"]
          (mk_item 1 "cover.jpg" :: mk_item ITEM_DOCUMENT "Copyright"
             :: repeat (mk_item ITEM_DOCUMENT sample_text) n_chapters).

Definition sample_args (fmt filename_format : string) (verbose : bool) : args :=
  mk_args ["dune.epub"] None None fmt filename_format verbose.

Definition sample_state : state nat :=
  mk_state (mk_os {["dune.epub"]} 0) [].

(** The loop of [process_book] and the whole run in the sample
    environment, on the sample book with [n] chapters. *)
Definition sample_loop (say_fails : nat -> bool) (ffmpeg_status : option Z)
           (a : args) (n : nat) : result unit * state nat :=
  process_items id (sample_spawn say_fails ffmpeg_status) sample_tempname
                sample_conv a "Frank Herbert" "Dune" (get_items (sample_book n))
                1 sample_state.

Definition sample_run (spawn : list string -> os_state nat -> option (Z * os_state nat))
           (a : args) (n : nat) : result unit * state nat :=
  main id (fun _ _ => Ok (sample_book n)) spawn sample_tempname sample_conv
       a sample_state.

(** [convert_audio] to a destination that exists already, with [ffmpeg]
    missing; and to a new destination, with an [ffmpeg] that writes it and
    exits with status 1. *)
Definition convert_without_ffmpeg : result unit * state nat :=
  convert_audio (sample_spawn (fun _ => false) None)
                "/tmp/tmp0.aiff" "Dune - Chapter 01.mp3" ".mp3" false
                (mk_state (mk_os {["/tmp/tmp0.aiff"; "Dune - Chapter 01.mp3"]} 0) []).

Definition convert_with_failing_ffmpeg : result unit * state nat :=
  convert_audio (sample_spawn (fun _ => false) (Some 1%Z))
                "/tmp/tmp0.aiff" "Dune - Chapter 01.mp3" ".mp3" false
                (mk_state (mk_os {["/tmp/tmp0.aiff"]} 0) []).

(** ** More vocabulary: arguments, traces, file names *)

(** The same arguments with another [--format], another [--verbose]. *)
Definition set_format (fmt : string) (a : args) : args :=
  mk_args (files a) (author a) (title a) fmt (filename_format a) (verbose a).

Definition set_verbose (v : bool) (a : args) : args :=
  mk_args (files a) (author a) (title a) (format a) (filename_format a) v.

(** The progress lines, printed by [log] only. *)
Definition is_info (ev : event) : bool :=
  match ev with
  | Print (InfoStarting _) | Print (InfoAuthor _) | Print (InfoTitle _)
  | Print (InfoProcessing _) | Print (InfoConverting _ _ _) => true
  | _ => false
  end.

Definition without_info (tr : list event) : list event :=
  List.filter (fun ev => negb (is_info ev)) tr.

(** A computation adds to the trace a list of events that satisfies [Q],
    whatever the state it starts in and whether it raises or not. *)
Definition adds {E A : Type} (Q : list event -> Prop) (m : M E A) : Prop :=
  forall st, exists evs, trace (snd (m st)) = trace st ++ evs /\ Q evs.

(** The programs the script may start: [say -o ...] and [ffmpeg -y -i ...]. *)
Definition expected_program (ev : event) : bool :=
  match ev with
  | Run ("say" :: "-o" :: _) => true
  | Run ("ffmpeg" :: "-y" :: "-i" :: _) => true
  | Run _ => false
  | _ => true
  end.

(** The name of the temporary file an event creates, and the path an
    event removes or moves away. *)
Definition temp_name (ev : event) : option string :=
  match ev with TempFile name => Some name | _ => None end.

Definition taken_away (ev : event) : option string :=
  match ev with
  | Remove path => Some path
  | Move src _ => Some src
  | _ => None
  end.

(** Every path that the events remove or move away is a temporary file
    made before: one of [made], or created earlier in the same events. *)
Fixpoint own_temps (made : list string) (evs : list event) : bool :=
  match evs with
  | [] => true
  | ev :: rest =>
      match taken_away ev with
      | Some path => bool_decide (path ∈ made)
      | None => true
      end
      && own_temps (match temp_name ev with
                    | Some name => name :: made
                    | None => made
                    end) rest
  end.

(** An event that removes or moves away no path but [temp_aiff]. *)
Definition touches_only (temp_aiff : string) (ev : event) : Prop :=
  match taken_away ev with
  | Some path => path = temp_aiff
  | None => True
  end.

(** Two states that differ in the progress lines of their traces only,
    and two computations that, started in two such states, end with the
    same result in two such states. *)
Definition same_but_info {E : Type} (st st' : state E) : Prop :=
  os st = os st' /\ without_info (trace st) = without_info (trace st').

Definition alike {E A : Type} (m m' : M E A) : Prop :=
  forall st st',
    same_but_info st st' ->
    fst (m st) = fst (m' st') /\ same_but_info (snd (m st)) (snd (m' st')).

(** The chapter number written with at least two digits, as [%02d] does. *)
Definition two_digits (n : nat) : string :=
  Py.repeat_char "0" (2 - String.length (Py.str_of_nat n)) +:+ Py.str_of_nat n.

(** The file name the default template stands for. *)
Definition default_name (fmt safe_author safe_title : string) (n : nat) : string :=
  safe_author +:+ "-" +:+ safe_title +:+ " - Chapter " +:+ two_digits n
    +:+ "." +:+ without_leading_dot (extension fmt).

(** The number that a string of decimal digits writes. *)
Definition nat_of_digits (s : string) : option nat :=
  match NilZero.uint_of_string s with
  | Some d => Some (Nat.of_uint d)
  | None => None
  end.

Arguments Py.mem : simpl never.

(** * Properties *)

(** ** Names: precedence and sanitization *)

Section Names.

Lemma mem_cons (c a : ascii) (s : string) :
  Py.mem c (String a s) = Ascii.eqb c a || Py.mem c s.
Proof. reflexivity. Qed.

Lemma if_else_opt_some (s alt : string) :
  s <> "" -> if_else_opt (Some s) alt = s.
Proof.
  intros Hs. unfold if_else_opt, truthy.
  destruct (String.eqb_spec s ""); [contradiction | reflexivity].
Qed.

Lemma if_else_nonempty (s alt : string) : s <> "" -> if_else s alt = s.
Proof.
  intros Hs. unfold if_else, truthy.
  destruct (String.eqb_spec s ""); [contradiction | reflexivity].
Qed.

(** No character of the class survives [safe_name]. *)
Lemma safe_name_clean (s : string) (c : ascii) :
  Py.mem c unsafe_chars = true -> Py.mem c (safe_name s) = false.
Proof.
  intros Hc. unfold safe_name.
  induction s as [|a s IH]; simpl; [reflexivity|].
  destruct (Py.mem a unsafe_chars) eqn:Ha; [exact IH|].
  rewrite mem_cons, IH, orb_false_r.
  destruct (Ascii.eqb_spec c a) as [->|]; [congruence | reflexivity].
Qed.

(** Characters outside the class are kept, in particular the percent
    sign. *)
Lemma safe_name_keeps (s : string) (c : ascii) :
  Py.mem c unsafe_chars = false -> Py.mem c (safe_name s) = Py.mem c s.
Proof.
  intros Hc. unfold safe_name.
  induction s as [|a s IH]; simpl; [reflexivity|].
  destruct (Py.mem a unsafe_chars) eqn:Ha.
  - rewrite mem_cons, IH.
    destruct (Ascii.eqb_spec c a) as [->|]; [congruence | reflexivity].
  - rewrite !mem_cons, IH. reflexivity.
Qed.

(** [process_book] on a file that exists and parses: the names are logged
    as resolved, and the loop gets the sanitized ones. *)
Lemma process_book_found (E : Type) clean_html read_epub spawn tempname
      extern_conv (filepath : string) (a : args) (b : book) (st : state E) :
  filepath ∈ paths (os st) ->
  read_epub filepath (os st) = Ok b ->
  process_book clean_html read_epub spawn tempname extern_conv filepath a st
  = (log (InfoAuthor (identify_author a b)) (verbose a) ;;
     log (InfoTitle (identify_title a b)) (verbose a) ;;
     process_items clean_html spawn tempname extern_conv a
       (safe_name (identify_author a b))
       (safe_name (identify_title a b)) (get_items b) 1) st.
Proof.
  intros Hin Hread. unfold process_book, bind at 1, os_path_exists.
  rewrite bool_decide_eq_true_2 by exact Hin. simpl. rewrite Hread.
  reflexivity.
Qed.

(** C10: an override given as the empty string does not override.  The
    resolved author (resp. title) is the same as when the option is not
    given at all, so it comes from the metadata or is the fallback; a
    non-empty override is what the first step of the chain takes; and an
    empty first metadata value falls through to the fallback. *)
Theorem empty_override_is_no_override :
  forall (fs : list string) (au ti : option string) (fmt ff : string)
         (v : bool) (b : book),
    identify_author (mk_args fs (Some "") ti fmt ff v) b
      = identify_author (mk_args fs None ti fmt ff v) b
    /\ identify_title (mk_args fs au (Some "") fmt ff v) b
      = identify_title (mk_args fs au None fmt ff v) b
    /\ (forall s, s <> "" ->
          identify_author (mk_args fs (Some s) ti fmt ff v) b = s)
    /\ (forall s, s <> "" ->
          identify_title (mk_args fs au (Some s) fmt ff v) b = s)
    /\ (forall titles rest items,
          identify_author (mk_args fs None ti fmt ff v)
                          (mk_book titles ("" :: rest) items)
          = "Unknown Author")
    /\ (forall creators rest items,
          identify_title (mk_args fs au None fmt ff v)
                         (mk_book ("" :: rest) creators items)
          = "Unknown Title").
Proof.
  intros fs au ti fmt ff v b. repeat split; try reflexivity.
  - intros s Hs. unfold identify_author; simpl. now apply if_else_opt_some.
  - intros s Hs. unfold identify_title; simpl. now apply if_else_opt_some.
Qed.

Lemma empty_override_is_no_override_witness :
  identify_author
    (mk_args [] (Some "Ann Radcliffe") None ".m4a" default_filename_format false)
    (mk_book [] ["Mary Shelley"] [])
  = "Ann Radcliffe"
  /\ identify_title
       (mk_args [] None (Some "Udolpho") ".m4a" default_filename_format false)
       (mk_book ["Frankenstein"] ["Mary Shelley"] [])
     = "Udolpho".
Proof.
  split.
  - refine (proj1 (proj2 (proj2
      (empty_override_is_no_override [] None None ".m4a" default_filename_format
         false (mk_book [] ["Mary Shelley"] []))))
      "Ann Radcliffe" _).
    discriminate.
  - refine (proj1 (proj2 (proj2 (proj2
      (empty_override_is_no_override [] None None ".m4a" default_filename_format
         false (mk_book ["Frankenstein"] ["Mary Shelley"] [])))))
      "Udolpho" _).
    discriminate.
Defined.

(** The claim of C6 read to the letter fails for an override that is
    given but empty: the metadata value is taken, not the override. *)
Lemma given_but_empty_override_loses :
  author (mk_args [] (Some "") None ".m4a" default_filename_format false)
    = Some ""
  /\ identify_author
       (mk_args [] (Some "") None ".m4a" default_filename_format false)
       (mk_book [] ["Mary Shelley"] [])
     = "Mary Shelley".
Proof. split; reflexivity. Qed.

(** C6, amended: for the author and for the title, the resolved value is
    the command-line override when it is given and non-empty, otherwise
    the first metadata value when there is one and it is non-empty,
    otherwise the fallback text; a non-empty override wins whatever the
    metadata holds.  The variant used for file names holds no
    character of the class (backslash, slash, star, question mark, colon,
    double quote, angle brackets, bar).  In [process_book] the resolved
    values are logged as they are, and the loop over the items gets the
    sanitized ones. *)
Theorem identity_precedence :
  forall (a : args) (b : book),
    (forall s, author a = Some s -> s <> "" -> identify_author a b = s)
    /\ (forall m rest, truthy_opt (author a) = false ->
          dc_creator b = m :: rest -> m <> "" -> identify_author a b = m)
    /\ (truthy_opt (author a) = false ->
          dc_creator b = [] \/ (exists rest, dc_creator b = "" :: rest) ->
          identify_author a b = "Unknown Author")
    /\ (forall s, title a = Some s -> s <> "" -> identify_title a b = s)
    /\ (forall m rest, truthy_opt (title a) = false ->
          dc_title b = m :: rest -> m <> "" -> identify_title a b = m)
    /\ (truthy_opt (title a) = false ->
          dc_title b = [] \/ (exists rest, dc_title b = "" :: rest) ->
          identify_title a b = "Unknown Title")
    /\ (forall c, Py.mem c unsafe_chars = true ->
          Py.mem c (safe_name (identify_author a b)) = false
          /\ Py.mem c (safe_name (identify_title a b)) = false)
    /\ map nat_of_ascii (list_ascii_of_string unsafe_chars)
       = [92; 47; 42; 63; 58; 34; 60; 62; 124]
    /\ (forall (E : Type) clean_html read_epub spawn tempname extern_conv
               (filepath : string) (st : state E),
          filepath ∈ paths (os st) ->
          read_epub filepath (os st) = Ok b ->
          process_book clean_html read_epub spawn tempname extern_conv
                       filepath a st
          = (log (InfoAuthor (identify_author a b)) (verbose a) ;;
             log (InfoTitle (identify_title a b)) (verbose a) ;;
             process_items clean_html spawn tempname extern_conv a
               (safe_name (identify_author a b))
               (safe_name (identify_title a b)) (get_items b) 1) st).
Proof.
  intros a b.
  assert (Hno : forall o alt, truthy_opt o = false -> if_else_opt o alt = alt).
  { intros [s|] alt; simpl; [|reflexivity]. now intros ->. }
  repeat split.
  - intros s Hs Hne. unfold identify_author. rewrite Hs.
    now apply if_else_opt_some.
  - intros m rest Hno' Hm Hne. unfold identify_author, get_epub_metadata.
    rewrite Hno by exact Hno'. rewrite Hm. simpl. now apply if_else_nonempty.
  - intros Hno' Hm. unfold identify_author, get_epub_metadata.
    rewrite Hno by exact Hno'. destruct Hm as [-> | [rest ->]]; reflexivity.
  - intros s Hs Hne. unfold identify_title. rewrite Hs.
    now apply if_else_opt_some.
  - intros m rest Hno' Hm Hne. unfold identify_title, get_epub_metadata.
    rewrite Hno by exact Hno'. rewrite Hm. simpl. now apply if_else_nonempty.
  - intros Hno' Hm. unfold identify_title, get_epub_metadata.
    rewrite Hno by exact Hno'. destruct Hm as [-> | [rest ->]]; reflexivity.
  - now apply safe_name_clean.
  - now apply safe_name_clean.
  - intros E clean_html read_epub spawn tempname extern_conv filepath st Hin Hread.
    now apply process_book_found.
Qed.

Lemma identity_precedence_witness :
  identify_author
    (mk_args [] (Some "X") None ".m4a" default_filename_format false)
    (mk_book ["Frankenstein"] ["Mary Shelley"] [])
  = "X"
  /\ identify_title
       (mk_args [] (Some "X") None ".m4a" default_filename_format false)
       (mk_book ["Frankenstein"] ["Mary Shelley"] [])
     = "Frankenstein"
  /\ identify_author
       (mk_args [] None None ".m4a" default_filename_format false)
       (mk_book ["Frankenstein"] [] [])
     = "Unknown Author"
  /\ Py.mem "/"
       (safe_name
          (identify_author
             (mk_args [] (Some "A/B") None ".m4a" default_filename_format false)
             (mk_book [] [] [])))
     = false.
Proof.
  pose proof (identity_precedence
    (mk_args [] (Some "X") None ".m4a" default_filename_format false)
    (mk_book ["Frankenstein"] ["Mary Shelley"] [])) as H.
  pose proof (identity_precedence
    (mk_args [] None None ".m4a" default_filename_format false)
    (mk_book ["Frankenstein"] [] [])) as H0.
  pose proof (identity_precedence
    (mk_args [] (Some "A/B") None ".m4a" default_filename_format false)
    (mk_book [] [] [])) as H1.
  split; [|split; [|split]].
  - refine (proj1 H "X" eq_refl _). discriminate.
  - refine (proj1 (proj2 (proj2 (proj2 (proj2 H)))) "Frankenstein" [] eq_refl eq_refl _).
    discriminate.
  - exact (proj1 (proj2 (proj2 H0)) eq_refl (or_introl eq_refl)).
  - exact (proj1 (proj1 (proj2 (proj2 (proj2 (proj2 (proj2 (proj2 H1))))))
                    "/"%char eq_refl)).
Defined.

End Names.

(** ** File names *)

Section Filenames.

Variable extern_conv : ascii -> bool -> option N -> nat -> result string.

Lemma mem_app (c : ascii) (s t : string) :
  Py.mem c (s +:+ t) = Py.mem c s || Py.mem c t.
Proof.
  induction s as [|a s IH]; [reflexivity|].
  change (String a s +:+ t) with (String a (s +:+ t)).
  rewrite !mem_cons, IH. apply orb_assoc.
Qed.

Lemma replace_from_avoids (c : ascii) (old new s : string) (skip : nat) :
  Py.mem c s = false -> Py.mem c new = false ->
  Py.mem c (Py.replace_from old new s skip) = false.
Proof.
  intros Hs Hnew. revert skip Hs.
  induction s as [|a s IH]; intros skip Hs; [reflexivity|].
  rewrite mem_cons in Hs. apply orb_false_elim in Hs as [Ha Hs].
  simpl. destruct skip as [|k]; [|now apply IH].
  match goal with |- context [if ?b then _ else _] => destruct b end.
  - rewrite mem_app, Hnew. now apply IH.
  - rewrite mem_cons, Ha. now apply IH.
Qed.

Lemma intersperse_avoids (c : ascii) (new s : string) :
  Py.mem c s = false -> Py.mem c new = false ->
  Py.mem c (Py.intersperse new s) = false.
Proof.
  intros Hs Hnew. induction s as [|a s IH]; simpl; [exact Hnew|].
  rewrite mem_cons in Hs. apply orb_false_elim in Hs as [Ha Hs].
  rewrite mem_app, Hnew, mem_cons, Ha. now apply IH.
Qed.

(** [replace] brings in no character that neither the string nor the
    replacement holds. *)
Lemma replace_avoids (c : ascii) (s old new : string) :
  Py.mem c s = false -> Py.mem c new = false ->
  Py.mem c (Py.replace s old new) = false.
Proof.
  intros Hs Hnew. destruct old; simpl.
  - now apply intersperse_avoids.
  - now apply replace_from_avoids.
Qed.

Lemma no_percent_only_escapes (s : string) :
  Py.mem "%" s = false -> only_escapes false s = true.
Proof.
  induction s as [|a s IH]; intros H; [reflexivity|].
  rewrite mem_cons in H. apply orb_false_elim in H as [Ha Hs]. simpl.
  rewrite Ascii.eqb_sym, Ha. now apply IH.
Qed.

(** Without a directive that takes the argument, the scan ends with the
    argument unused: "not all arguments converted". *)
Lemma scan_only_escapes (n : nat) (s : string) :
  (only_escapes false s = true ->
   Format.scan extern_conv Format.PText true n s = Raise TypeError)
  /\ (only_escapes true s = true ->
      Format.scan extern_conv Format.PStart true n s = Raise TypeError).
Proof.
  induction s as [|c s [IHtext IHstart]]; split; simpl; try easy.
  - intros H. destruct (Ascii.eqb c "%"); simpl.
    + now rewrite IHstart.
    + now rewrite IHtext.
  - intros H. apply andb_prop in H as [Hc Hs]. rewrite Hc; simpl.
    now rewrite IHtext.
Qed.

Lemma percent_without_directive (template : string) (n : nat) :
  Py.mem "%" template = false ->
  Format.percent extern_conv template n = Raise TypeError.
Proof.
  intros H. apply scan_only_escapes. now apply no_percent_only_escapes.
Qed.

(** C4: the file name of a chapter is built in three steps.  The tokens
    for the author and the title are replaced in the template; the chapter
    number is applied to the result with the percent operator; and if the
    extension token occurs in what comes out, it is replaced by the
    extension without its leading dot, otherwise the extension, dot
    included, is appended.  The two examples of the specification come out
    as stated. *)
Theorem filename_three_steps :
  (forall (fmt template safe_author safe_title : string) (chapter_num : nat),
      In fmt format_choices ->
      render_filename extern_conv fmt template safe_author safe_title chapter_num
      = match
          Format.percent extern_conv
            (Py.replace (Py.replace template "${Author}" safe_author)
                        "${Title}" safe_title)
            chapter_num
        with
        | Raise e => Raise e
        | Ok name =>
            Ok (if Py.contains "${ext}" name
                then Py.replace name "${ext}" (without_leading_dot (extension fmt))
                else name +:+ extension fmt)
        end)
  /\ render_filename extern_conv ".mp3" "${Author}-${Title} - Chapter %02d.${ext}"
                     "Jane Doe" "Dune" 3
     = Ok "Jane Doe-Dune - Chapter 03.mp3"
  /\ render_filename extern_conv "wav" "Ch%d" "Jane Doe" "Dune" 7
     = Ok "Ch7.wav".
Proof.
  split; [|split; reflexivity].
  intros fmt template safe_author safe_title chapter_num Hfmt.
  unfold render_filename.
  destruct (Format.percent _ _ _) as [name|e]; [|reflexivity].
  assert (Hstrip : Py.strip_chars (extension fmt) "."
                   = without_leading_dot (extension fmt)).
  { simpl in Hfmt.
    repeat (destruct Hfmt as [<- | Hfmt]; [reflexivity|]). contradiction. }
  now rewrite Hstrip.
Qed.

End Filenames.

(** ** The loop over the items *)

Section Run.

Variable E : Type.
Variable clean_html : string -> string.
Variable read_epub : string -> os_state E -> result book.
Variable spawn : list string -> os_state E -> option (Z * os_state E).
Variable tempname : string -> os_state E -> string.
Variable extern_conv : ascii -> bool -> option N -> nat -> result string.

Variable a : args.
Variables safe_author safe_title : string.

Local Abbreviation process_items' :=
  (process_items clean_html spawn tempname extern_conv a safe_author safe_title).
Local Abbreviation process_chapter' :=
  (process_chapter spawn tempname extern_conv a safe_author safe_title).
Local Abbreviation run_chapters' :=
  (run_chapters spawn tempname extern_conv a safe_author safe_title).
Local Abbreviation render k :=
  (render_filename extern_conv (format a) (filename_format a)
                   safe_author safe_title k).

Lemma numbered_cons (k : nat) (t : string) (texts : list string) :
  numbered k (t :: texts) = (k, t) :: numbered (S k) texts.
Proof. reflexivity. Qed.

Lemma numbered_fst (k : nat) (texts : list string) :
  map fst (numbered k texts) = seq k (length texts).
Proof.
  revert k. induction texts as [|t texts IH]; intros k; [reflexivity|].
  rewrite numbered_cons. simpl. now rewrite IH.
Qed.

Lemma numbered_snd (k : nat) (texts : list string) :
  map snd (numbered k texts) = texts.
Proof.
  revert k. induction texts as [|t texts IH]; intros k; [reflexivity|].
  rewrite numbered_cons. simpl. now rewrite IH.
Qed.

Lemma numbered_lookup (k : nat) (texts : list string) (i : nat) :
  numbered k texts !! i = (fun text => (k + i, text)) <$> texts !! i.
Proof.
  revert k i. induction texts as [|t texts IH]; intros k i; [reflexivity|].
  rewrite numbered_cons. destruct i as [|i]; simpl.
  - now rewrite Nat.add_0_r.
  - rewrite IH. now rewrite Nat.add_succ_r.
Qed.

Lemma chapters_cons (it : item) (items : list item) :
  chapters clean_html (it :: items)
  = if is_chapter clean_html it
    then item_text clean_html it :: chapters clean_html items
    else chapters clean_html items.
Proof. unfold chapters. simpl. now destruct (is_chapter clean_html it). Qed.

(** The loop is the loop body run on the chapters, numbered from the
    starting number on. *)
Lemma process_items_run_chapters (items : list item) (k : nat) (st : state E) :
  process_items' items k st
  = run_chapters' (numbered k (chapters clean_html items)) st.
Proof.
  revert k st. induction items as [|it items IH]; intros k st; [reflexivity|].
  rewrite chapters_cons. unfold is_chapter. simpl.
  destruct (get_type it =? ITEM_DOCUMENT); simpl; [|apply IH].
  destruct (String.length (item_text clean_html it) <? 100); simpl; [apply IH|].
  fold (numbered (S k) (chapters clean_html items)). unfold bind.
  destruct (process_chapter' k (item_text clean_html it) st) as [[[]|e] st'];
    [apply IH | reflexivity].
Qed.

(** Every chapter has a text of at least 100 characters. *)
Lemma chapters_long (items : list item) :
  Forall (fun text => 100 <= String.length text) (chapters clean_html items).
Proof.
  induction items as [|it items IH]; [constructor|].
  rewrite chapters_cons. destruct (is_chapter clean_html it) eqn:Hit; [|exact IH].
  constructor; [|exact IH].
  unfold is_chapter in Hit. apply andb_prop in Hit as [_ Hlen].
  apply negb_true_iff, Nat.ltb_ge in Hlen. exact Hlen.
Qed.

(** *** One chapter *)

Ltac exec :=
  unfold process_chapter, convert_audio, bind, try_except, lift, log, print,
    emit, ret, raise, NamedTemporaryFile, subprocess_run, os_path_exists,
    os_remove, shutil_move, ffmpeg_handler, extend, cleanup, logged,
    temp_of, with_temp, say_argv, ffmpeg_argv.

Ltac tidy := simpl; rewrite <- ?app_assoc; simpl; rewrite ?app_nil_r.

Lemma extend_nil (st : state E) : extend st [] = st.
Proof. destruct st. unfold extend. simpl. now rewrite app_nil_r. Qed.

Lemma log_extend (m : message) (v : bool) (st : state E) :
  log m v st = (Ok tt, extend st (logged m v)).
Proof.
  destruct v; [reflexivity|]. unfold log, ret, logged. now rewrite extend_nil.
Qed.

(** When the file name cannot be rendered, the exception leaves the loop
    body before anything but the progress line has happened. *)
Lemma chapter_render_raises (k : nat) (text : string) (st : state E) (e : exn) :
  render k = Raise e ->
  process_chapter' k text st
  = (Raise e, extend st (logged (InfoProcessing k) (verbose a))).
Proof.
  intros Hr. unfold process_chapter, bind at 1. rewrite log_extend.
  unfold bind, lift. now rewrite Hr.
Qed.

(** [convert_audio] when the transcoder cannot be started, when it exits
    with an error, and when it succeeds. *)
Lemma convert_audio_no_ffmpeg (input_file output_file ext : string) (v : bool)
      (options : list string) (st : state E) :
  ffmpeg_options ext = Some options ->
  spawn (ffmpeg_argv input_file output_file options) (os st) = None ->
  convert_audio spawn input_file output_file ext v st
  = (Ok tt,
     extend st (logged (InfoConverting input_file output_file ext) v
                ++ [Run (ffmpeg_argv input_file output_file options);
                    Print ErrNoFfmpeg])).
Proof.
  intros Hopt Hsp. unfold ffmpeg_argv in *. simpl in Hsp.
  unfold convert_audio, bind. rewrite log_extend, Hopt.
  exec. simpl. rewrite Hsp. exec. tidy. reflexivity.
Qed.

Lemma convert_audio_ffmpeg_exit (input_file output_file ext : string) (v : bool)
      (options : list string) (st : state E) (rc : Z) (o' : os_state E) :
  ffmpeg_options ext = Some options ->
  spawn (ffmpeg_argv input_file output_file options) (os st) = Some (rc, o') ->
  convert_audio spawn input_file output_file ext v st
  = (Ok tt,
     mk_state o'
       (trace st ++ logged (InfoConverting input_file output_file ext) v
        ++ Run (ffmpeg_argv input_file output_file options)
        :: (if (rc =? 0)%Z then [] else [Print (ErrConvert ext)]))).
Proof.
  intros Hopt Hsp. unfold ffmpeg_argv in *. simpl in Hsp.
  unfold convert_audio, bind. rewrite log_extend, Hopt.
  exec. simpl. rewrite Hsp. destruct (rc =? 0)%Z; exec; tidy; reflexivity.
Qed.

(** The loop body when [say] cannot be started, when it exits with an
    error, and when it succeeds. *)
Lemma chapter_say_missing (k : nat) (text : string) (st : state E) (f : string) :
  render k = Ok f ->
  spawn (say_argv (temp_of tempname st) text) (with_temp tempname st) = None ->
  process_chapter' k text st
  = (Ok tt,
     mk_state (with_temp tempname st)
       (trace st ++ logged (InfoProcessing k) (verbose a)
        ++ [TempFile (temp_of tempname st);
            Run (say_argv (temp_of tempname st) text);
            Print (ErrChapter k FileNotFoundError)])).
Proof.
  intros Hr Hsp. unfold say_argv, with_temp, temp_of in *.
  unfold process_chapter, bind at 1. rewrite log_extend.
  unfold bind at 1, lift. rewrite Hr.
  exec. simpl. rewrite Hsp. exec. tidy. reflexivity.
Qed.

Lemma chapter_say_fails (k : nat) (text : string) (st : state E) (f : string)
      (rc : Z) (o' : os_state E) :
  render k = Ok f ->
  spawn (say_argv (temp_of tempname st) text) (with_temp tempname st)
    = Some (rc, o') ->
  rc <> 0%Z ->
  process_chapter' k text st
  = (Ok tt,
     mk_state o'
       (trace st ++ logged (InfoProcessing k) (verbose a)
        ++ [TempFile (temp_of tempname st);
            Run (say_argv (temp_of tempname st) text);
            Print (ErrChapter k (CalledProcessError rc))])).
Proof.
  intros Hr Hsp Hrc. unfold say_argv, with_temp, temp_of in *.
  unfold process_chapter, bind at 1. rewrite log_extend.
  unfold bind at 1, lift. rewrite Hr.
  exec. simpl. rewrite Hsp.
  destruct (Z.eqb_spec rc 0) as [|_]; [contradiction|].
  exec. tidy. reflexivity.
Qed.

Lemma chapter_say_ok (k : nat) (text : string) (st : state E) (f : string)
      (o' : os_state E) :
  render k = Ok f ->
  spawn (say_argv (temp_of tempname st) text) (with_temp tempname st)
    = Some (0%Z, o') ->
  process_chapter' k text st
  = try_except
      (convert_audio spawn (temp_of tempname st) f (extension (format a))
                     (verbose a) ;;
       still_there <- os_path_exists (temp_of tempname st) ;;
       if still_there then os_remove (temp_of tempname st) else ret tt)
      (fun e => print (ErrChapter k e))
      (mk_state o'
         (trace st ++ logged (InfoProcessing k) (verbose a)
          ++ [TempFile (temp_of tempname st);
              Run (say_argv (temp_of tempname st) text)])).
Proof.
  intros Hr Hsp. unfold say_argv, with_temp, temp_of in *.
  unfold process_chapter, bind at 1. rewrite log_extend.
  unfold bind at 1, lift. rewrite Hr.
  unfold bind at 1, NamedTemporaryFile. unfold try_except at 1.
  unfold bind at 1, subprocess_run. simpl. rewrite Hsp. simpl.
  unfold try_except. rewrite <- !app_assoc. reflexivity.
Qed.

(** Whatever [convert_audio] leaves, the check of lines 148 and 149 ends
    in [cleanup]. *)
Lemma remove_if_exists (temp_aiff : string) (st : state E) :
  (still_there <- os_path_exists temp_aiff ;;
   if still_there then os_remove temp_aiff else ret tt) st
  = (Ok tt, cleanup temp_aiff st).
Proof.
  exec. simpl. destruct (bool_decide (temp_aiff ∈ paths (os st))) eqn:Hin.
  - now rewrite Hin.
  - reflexivity.
Qed.

Lemma cleanup_shape (temp_aiff : string) (o : os_state E) (tr : list event) :
  exists o' tail,
    cleanup temp_aiff (mk_state o tr) = mk_state o' (tr ++ tail)
    /\ announced tail = [] /\ said tail = [] /\ failed_chapters tail = []
    /\ temp_aiff ∉ paths o'.
Proof.
  unfold cleanup. simpl.
  destruct (bool_decide (temp_aiff ∈ paths o)) eqn:Hin.
  - eexists _, [Remove temp_aiff]. repeat split. simpl.
    apply not_elem_of_difference. right. now apply elem_of_singleton.
  - exists o, []. rewrite app_nil_r. repeat split.
    now apply bool_decide_eq_false in Hin.
Qed.

Lemma chapter_no_ffmpeg (k : nat) (text : string) (st : state E) (f : string)
      (o' : os_state E) (options : list string) :
  render k = Ok f ->
  spawn (say_argv (temp_of tempname st) text) (with_temp tempname st)
    = Some (0%Z, o') ->
  ffmpeg_options (extension (format a)) = Some options ->
  spawn (ffmpeg_argv (temp_of tempname st) f options) o' = None ->
  process_chapter' k text st
  = (Ok tt,
     cleanup (temp_of tempname st)
       (mk_state o'
          (trace st ++ logged (InfoProcessing k) (verbose a)
           ++ [TempFile (temp_of tempname st);
               Run (say_argv (temp_of tempname st) text)]
           ++ logged (InfoConverting (temp_of tempname st) f
                                     (extension (format a))) (verbose a)
           ++ [Run (ffmpeg_argv (temp_of tempname st) f options);
               Print ErrNoFfmpeg]))).
Proof.
  intros Hr Hsay Hopt Hff. rewrite (chapter_say_ok _ _ _ _ _ Hr Hsay).
  unfold try_except, bind at 1.
  rewrite (convert_audio_no_ffmpeg _ _ _ _ _ _ Hopt) by exact Hff.
  rewrite remove_if_exists. unfold extend. simpl.
  now rewrite <- !app_assoc.
Qed.

Lemma chapter_ffmpeg_exit (k : nat) (text : string) (st : state E) (f : string)
      (o' o'' : os_state E) (options : list string) (rc : Z) :
  render k = Ok f ->
  spawn (say_argv (temp_of tempname st) text) (with_temp tempname st)
    = Some (0%Z, o') ->
  ffmpeg_options (extension (format a)) = Some options ->
  spawn (ffmpeg_argv (temp_of tempname st) f options) o' = Some (rc, o'') ->
  process_chapter' k text st
  = (Ok tt,
     cleanup (temp_of tempname st)
       (mk_state o''
          (trace st ++ logged (InfoProcessing k) (verbose a)
           ++ [TempFile (temp_of tempname st);
               Run (say_argv (temp_of tempname st) text)]
           ++ logged (InfoConverting (temp_of tempname st) f
                                     (extension (format a))) (verbose a)
           ++ Run (ffmpeg_argv (temp_of tempname st) f options)
           :: (if (rc =? 0)%Z then []
               else [Print (ErrConvert (extension (format a)))])))).
Proof.
  intros Hr Hsay Hopt Hff. rewrite (chapter_say_ok _ _ _ _ _ Hr Hsay).
  unfold try_except, bind at 1.
  rewrite (convert_audio_ffmpeg_exit _ _ _ _ _ _ _ _ Hopt) by exact Hff.
  rewrite remove_if_exists. simpl. now rewrite <- !app_assoc.
Qed.

Lemma chapter_aiff (k : nat) (text : string) (st : state E) (f : string)
      (o' : os_state E) :
  render k = Ok f ->
  spawn (say_argv (temp_of tempname st) text) (with_temp tempname st)
    = Some (0%Z, o') ->
  ffmpeg_options (extension (format a)) = None ->
  let before :=
    trace st ++ logged (InfoProcessing k) (verbose a)
    ++ [TempFile (temp_of tempname st);
        Run (say_argv (temp_of tempname st) text)]
    ++ logged (InfoConverting (temp_of tempname st) f
                              (extension (format a))) (verbose a) in
  process_chapter' k text st
  = if bool_decide (temp_of tempname st ∈ paths o')
    then (Ok tt,
          cleanup (temp_of tempname st)
            (mk_state (mk_os (paths o' ∖ {[temp_of tempname st]} ∪ {[f]})
                             (hidden o'))
                      (before ++ [Move (temp_of tempname st) f])))
    else (Ok tt,
          mk_state o' (before ++ [Print (ErrChapter k FileNotFoundError)])).
Proof.
  intros Hr Hsay Hopt before. rewrite (chapter_say_ok _ _ _ _ _ Hr Hsay).
  unfold try_except, bind at 1, convert_audio, bind at 1.
  rewrite log_extend, Hopt. unfold shutil_move, extend. simpl.
  destruct (bool_decide (temp_of tempname st ∈ paths o')).
  - rewrite remove_if_exists. subst before. now rewrite <- !app_assoc.
  - exec. subst before. simpl. now rewrite <- !app_assoc.
Qed.

Lemma announced_app (l1 l2 : list event) :
  announced (l1 ++ l2) = announced l1 ++ announced l2.
Proof. apply omap_app. Qed.

Lemma said_app (l1 l2 : list event) : said (l1 ++ l2) = said l1 ++ said l2.
Proof. apply omap_app. Qed.

Lemma failed_chapters_app (l1 l2 : list event) :
  failed_chapters (l1 ++ l2) = failed_chapters l1 ++ failed_chapters l2.
Proof. apply omap_app. Qed.

Lemma announced_logged (k : nat) (v : bool) :
  announced (logged (InfoProcessing k) v) = if v then [k] else [].
Proof. now destruct v. Qed.

Lemma quiet_logged_converting (i o ext : string) (v : bool) :
  announced (logged (InfoConverting i o ext) v) = []
  /\ said (logged (InfoConverting i o ext) v) = []
  /\ failed_chapters (logged (InfoConverting i o ext) v) = [].
Proof. now destruct v. Qed.

Lemma said_logged (m : message) (v : bool) : said (logged m v) = [].
Proof. now destruct v. Qed.

Lemma announced_start (temp_aiff text : string) :
  announced [TempFile temp_aiff; Run (say_argv temp_aiff text)] = [].
Proof. reflexivity. Qed.

Lemma said_start (temp_aiff text : string) :
  said [TempFile temp_aiff; Run (say_argv temp_aiff text)] = [text].
Proof. reflexivity. Qed.

Lemma say_text_ffmpeg (i o : string) (options : list string) :
  say_text (Run (ffmpeg_argv i o options)) = None.
Proof. reflexivity. Qed.

(** The loop body, once the file name is rendered, returns normally in
    every environment.  It has announced the chapter (when verbose),
    created the temporary file and handed the text to [say]; what follows
    announces no chapter and starts no other synthesis. *)
Lemma chapter_shape (k : nat) (text : string) (st : state E) (f : string) :
  render k = Ok f ->
  exists o' tail,
    process_chapter' k text st
    = (Ok tt,
       mk_state o'
         (trace st ++ logged (InfoProcessing k) (verbose a)
          ++ [TempFile (temp_of tempname st);
              Run (say_argv (temp_of tempname st) text)]
          ++ tail))
    /\ announced tail = [] /\ said tail = [].
Proof.
  intros Hr.
  destruct (spawn (say_argv (temp_of tempname st) text) (with_temp tempname st))
    as [[rc o']|] eqn:Hsay.
  2:{ rewrite (chapter_say_missing _ _ _ _ Hr Hsay).
      eexists _, [_]. split; [reflexivity|]. split; reflexivity. }
  destruct (Z.eq_dec rc 0%Z) as [->|Hrc].
  2:{ rewrite (chapter_say_fails _ _ _ _ _ _ Hr Hsay Hrc).
      eexists _, [_]. split; [reflexivity|]. split; reflexivity. }
  destruct (ffmpeg_options (extension (format a))) as [options|] eqn:Hopt.
  - destruct (spawn (ffmpeg_argv (temp_of tempname st) f options) o')
      as [[rc o'']|] eqn:Hff.
    + rewrite (chapter_ffmpeg_exit _ _ _ _ _ _ _ _ Hr Hsay Hopt Hff).
      match goal with |- context [cleanup ?t (mk_state ?o ?tr)] =>
        destruct (cleanup_shape t o tr) as (o3 & tail & -> & Ha & Hs & _) end.
      eexists o3, _. rewrite <- !app_assoc. split; [reflexivity|].
      rewrite !announced_app, !said_app, Ha, Hs, said_logged.
      destruct (quiet_logged_converting (temp_of tempname st) f
                  (extension (format a)) (verbose a)) as (-> & _).
      destruct (rc =? 0)%Z; split; reflexivity.
    + rewrite (chapter_no_ffmpeg _ _ _ _ _ _ Hr Hsay Hopt Hff).
      match goal with |- context [cleanup ?t (mk_state ?o ?tr)] =>
        destruct (cleanup_shape t o tr) as (o3 & tail & -> & Ha & Hs & _) end.
      eexists o3, _. rewrite <- !app_assoc. split; [reflexivity|].
      rewrite !announced_app, !said_app, Ha, Hs, said_logged.
      destruct (quiet_logged_converting (temp_of tempname st) f
                  (extension (format a)) (verbose a)) as (-> & _).
      split; reflexivity.
  - rewrite (chapter_aiff _ _ _ _ _ Hr Hsay Hopt).
    destruct (bool_decide (temp_of tempname st ∈ paths o')).
    + match goal with |- context [cleanup ?t (mk_state ?o ?tr)] =>
        destruct (cleanup_shape t o tr) as (o3 & tail & -> & Ha & Hs & _) end.
      eexists o3, _. rewrite <- !app_assoc. split; [reflexivity|].
      rewrite !announced_app, !said_app, Ha, Hs, said_logged.
      destruct (quiet_logged_converting (temp_of tempname st) f
                  (extension (format a)) (verbose a)) as (-> & _).
      split; reflexivity.
    + eexists o', _. rewrite <- !app_assoc. split; [reflexivity|].
      rewrite !announced_app, !said_app, said_logged.
      destruct (quiet_logged_converting (temp_of tempname st) f
                  (extension (format a)) (verbose a)) as (-> & _).
      split; reflexivity.
Qed.

Lemma chapter_returns (k : nat) (text : string) (st : state E) (f : string) :
  render k = Ok f -> fst (process_chapter' k text st) = Ok tt.
Proof.
  intros Hr. destruct (chapter_shape k text st f Hr) as (o' & tail & -> & _).
  reflexivity.
Qed.

(** *** All the chapters *)

Lemma run_chapters_returns (l : list (nat * string)) (st : state E) :
  Forall (fun p => is_ok (render (fst p)) = true) l ->
  fst (run_chapters' l st) = Ok tt.
Proof.
  intros Hl. revert st. induction Hl as [|[k text] l Hk _ IH]; intros st;
    [reflexivity|].
  simpl in *. unfold bind.
  destruct (render k) as [f|e] eqn:Hr; [|discriminate].
  destruct (chapter_shape k text st f Hr) as (o' & tail & -> & _).
  apply IH.
Qed.

Lemma run_chapters_trace (l : list (nat * string)) (st : state E) :
  fst (run_chapters' l st) = Ok tt ->
  announced (trace (snd (run_chapters' l st)))
  = announced (trace st) ++ (if verbose a then map fst l else [])
  /\ said (trace (snd (run_chapters' l st))) = said (trace st) ++ map snd l.
Proof.
  revert st. induction l as [|[k text] l IH]; intros st Hok.
  - cbn. destruct (verbose a); now rewrite !app_nil_r.
  - cbn [run_chapters] in *. unfold bind in *.
    destruct (render k) as [f|e] eqn:Hr.
    + destruct (chapter_shape k text st f Hr) as (o' & tail & Heq & Ha & Hs).
      rewrite Heq in *. destruct (IH _ Hok) as [-> ->]. cbn [trace map fst snd].
      rewrite !announced_app, !said_app, announced_start, said_start, Ha, Hs,
        announced_logged, said_logged.
      rewrite !app_nil_r, <- !app_assoc.
      now destruct (verbose a).
    + rewrite (chapter_render_raises _ _ _ _ Hr) in Hok. discriminate.
Qed.

Lemma run_chapters_said (P : string -> Prop) (l : list (nat * string))
      (st : state E) :
  Forall P (map snd l) -> Forall P (said (trace st)) ->
  Forall P (said (trace (snd (run_chapters' l st)))).
Proof.
  revert st. induction l as [|[k text] l IH]; intros st Hl Hst; [exact Hst|].
  simpl in *. unfold bind. apply Forall_cons_1 in Hl as [Htext Hl].
  destruct (render k) as [f|e] eqn:Hr.
  - destruct (chapter_shape k text st f Hr) as (o' & tail & -> & Ha & Hs).
    apply IH; [exact Hl|]. cbn [trace].
    rewrite !said_app, said_start, Hs, said_logged, app_nil_r.
    apply Forall_app. split; [exact Hst | now constructor].
  - rewrite (chapter_render_raises _ _ _ _ Hr). unfold extend. cbn [trace snd].
    now rewrite said_app, said_logged, app_nil_r.
Qed.

(** C1: the loop gives the chapters the numbers 1, 2, 3, ... in the order
    of the book.  It is the loop body run on the numbered list of the
    items that are documents with a text of at least 100 characters: no
    other item takes a number, and the numbering does not depend on what
    the external programs do, so a chapter whose synthesis or conversion
    fails keeps its number and the later ones keep theirs; the chapter at
    position [i] of that list, counted from 0, has the number [i + 1].
    When the loop
    returns, the chapters announced are 1 to the number of chapters (with
    the verbose flag) and the texts synthesized are the chapters' texts,
    in order. *)
Theorem chapters_numbered_in_order (items : list item) (st : state E) :
  process_items' items 1 st
  = run_chapters' (numbered 1 (chapters clean_html items)) st
  /\ map fst (numbered 1 (chapters clean_html items))
     = seq 1 (length (chapters clean_html items))
  /\ map snd (numbered 1 (chapters clean_html items))
     = map (item_text clean_html)
           (List.filter
              (fun it => (get_type it =? 9)
                         && negb (String.length (item_text clean_html it) <? 100))
              items)
  /\ (forall i : nat,
        numbered 1 (chapters clean_html items) !! i
        = (fun text => (S i, text)) <$> chapters clean_html items !! i)
  /\ (fst (process_items' items 1 st) = Ok tt ->
      announced (trace (snd (process_items' items 1 st)))
      = announced (trace st)
        ++ (if verbose a then seq 1 (length (chapters clean_html items)) else [])
      /\ said (trace (snd (process_items' items 1 st)))
         = said (trace st) ++ chapters clean_html items).
Proof.
  split; [apply process_items_run_chapters|].
  split; [apply numbered_fst|].
  split; [apply numbered_snd|].
  split; [intros i; apply numbered_lookup|].
  rewrite process_items_run_chapters. intros Hok.
  destruct (run_chapters_trace _ _ Hok) as [-> ->].
  now rewrite numbered_fst, numbered_snd.
Qed.

(** C5: an item whose text, once extracted and trimmed, has fewer than
    100 characters makes no chapter.  Every chapter's text has at least
    100 characters; taking such an item out of the book changes nothing in
    the run (no number is used, no program is started, no file appears);
    a book of such items only leaves the state as it was; and every text
    handed to [say] has at least 100 characters. *)
Theorem short_items_make_no_chapter (items : list item) :
  Forall (fun text => 100 <= String.length text) (chapters clean_html items)
  /\ (forall (before after : list item) (it : item) (k : nat) (st : state E),
        String.length (item_text clean_html it) < 100 ->
        process_items' (before ++ it :: after) k st
        = process_items' (before ++ after) k st)
  /\ (forall (k : nat) (st : state E),
        Forall (fun it => String.length (item_text clean_html it) < 100) items ->
        process_items' items k st = (Ok tt, st))
  /\ (forall (k : nat) (st : state E),
        Forall (fun text => 100 <= String.length text) (said (trace st)) ->
        Forall (fun text => 100 <= String.length text)
               (said (trace (snd (process_items' items k st))))).
Proof.
  split; [apply chapters_long|].
  assert (Hskip : forall it, String.length (item_text clean_html it) < 100 ->
                             is_chapter clean_html it = false).
  { intros it Hlen. unfold is_chapter.
    apply Nat.ltb_lt in Hlen. rewrite Hlen. apply andb_false_r. }
  split; [|split].
  - intros before after it k st Hlen.
    rewrite !process_items_run_chapters. unfold chapters.
    rewrite !List.filter_app. simpl. now rewrite (Hskip it Hlen).
  - intros k st Hall. rewrite process_items_run_chapters.
    assert (chapters clean_html items = []) as ->; [|reflexivity].
    induction Hall as [|it items' Hit _ IH]; [reflexivity|].
    rewrite chapters_cons, (Hskip it Hit). exact IH.
  - intros k st Hst. rewrite process_items_run_chapters.
    apply run_chapters_said; [|exact Hst].
    rewrite numbered_snd. apply chapters_long.
Qed.

Lemma failed_chapters_logged (m : message) (v : bool) :
  (forall k e, m <> ErrChapter k e) -> failed_chapters (logged m v) = [].
Proof.
  intros Hm. destruct v; [|reflexivity]. destruct m; try reflexivity.
  now destruct (Hm chapter_num e).
Qed.

Lemma failed_chapters_cleanup (temp_aiff : string) (o : os_state E)
      (tr : list event) :
  failed_chapters (trace (cleanup temp_aiff (mk_state o tr)))
  = failed_chapters tr.
Proof.
  destruct (cleanup_shape temp_aiff o tr) as (o' & tail & -> & _ & _ & Hf & _).
  cbn [trace]. now rewrite failed_chapters_app, Hf, app_nil_r.
Qed.

(** C3, amended: once the file name of a chapter is rendered, no failure
    of the synthesis or of the conversion leaves the loop body, so the
    loop goes on with the next chapter.  A failure of [say] (not
    installed, or a non-zero exit status) is caught in [process_book] and
    reported with the chapter number.  A failure of [ffmpeg] (not
    installed, or a non-zero exit status) is caught inside
    [convert_audio] and reported by a line that names the format or the
    missing program, not the chapter: no line with the chapter number is
    printed for it.  In the [.aiff] branch, which moves the file instead,
    a failing move does reach [process_book] and is reported with the
    chapter number.  When every file name renders, the loop returns
    normally and each chapter's text has been handed to [say], whatever
    happened to the other chapters. *)
Theorem failures_are_contained :
  (forall k text st f,
      render k = Ok f -> fst (process_chapter' k text st) = Ok tt)
  /\ (forall k text st f,
        render k = Ok f ->
        spawn (say_argv (temp_of tempname st) text) (with_temp tempname st)
          = None ->
        process_chapter' k text st
        = (Ok tt,
           mk_state (with_temp tempname st)
             (trace st ++ logged (InfoProcessing k) (verbose a)
              ++ [TempFile (temp_of tempname st);
                  Run (say_argv (temp_of tempname st) text);
                  Print (ErrChapter k FileNotFoundError)])))
  /\ (forall k text st f rc o',
        render k = Ok f ->
        spawn (say_argv (temp_of tempname st) text) (with_temp tempname st)
          = Some (rc, o') ->
        rc <> 0%Z ->
        process_chapter' k text st
        = (Ok tt,
           mk_state o'
             (trace st ++ logged (InfoProcessing k) (verbose a)
              ++ [TempFile (temp_of tempname st);
                  Run (say_argv (temp_of tempname st) text);
                  Print (ErrChapter k (CalledProcessError rc))])))
  /\ (forall k text st f o' options,
        render k = Ok f ->
        spawn (say_argv (temp_of tempname st) text) (with_temp tempname st)
          = Some (0%Z, o') ->
        ffmpeg_options (extension (format a)) = Some options ->
        spawn (ffmpeg_argv (temp_of tempname st) f options) o' = None ->
        process_chapter' k text st
        = (Ok tt,
           cleanup (temp_of tempname st)
             (mk_state o'
                (trace st ++ logged (InfoProcessing k) (verbose a)
                 ++ [TempFile (temp_of tempname st);
                     Run (say_argv (temp_of tempname st) text)]
                 ++ logged (InfoConverting (temp_of tempname st) f
                                           (extension (format a))) (verbose a)
                 ++ [Run (ffmpeg_argv (temp_of tempname st) f options);
                     Print ErrNoFfmpeg])))
        /\ failed_chapters (trace (snd (process_chapter' k text st)))
           = failed_chapters (trace st))
  /\ (forall k text st f o' o'' options rc,
        render k = Ok f ->
        spawn (say_argv (temp_of tempname st) text) (with_temp tempname st)
          = Some (0%Z, o') ->
        ffmpeg_options (extension (format a)) = Some options ->
        spawn (ffmpeg_argv (temp_of tempname st) f options) o'
          = Some (rc, o'') ->
        rc <> 0%Z ->
        process_chapter' k text st
        = (Ok tt,
           cleanup (temp_of tempname st)
             (mk_state o''
                (trace st ++ logged (InfoProcessing k) (verbose a)
                 ++ [TempFile (temp_of tempname st);
                     Run (say_argv (temp_of tempname st) text)]
                 ++ logged (InfoConverting (temp_of tempname st) f
                                           (extension (format a))) (verbose a)
                 ++ [Run (ffmpeg_argv (temp_of tempname st) f options);
                     Print (ErrConvert (extension (format a)))])))
        /\ failed_chapters (trace (snd (process_chapter' k text st)))
           = failed_chapters (trace st))
  /\ (forall k text st f o',
        render k = Ok f ->
        spawn (say_argv (temp_of tempname st) text) (with_temp tempname st)
          = Some (0%Z, o') ->
        ffmpeg_options (extension (format a)) = None ->
        temp_of tempname st ∉ paths o' ->
        process_chapter' k text st
        = (Ok tt,
           mk_state o'
             (trace st ++ logged (InfoProcessing k) (verbose a)
              ++ [TempFile (temp_of tempname st);
                  Run (say_argv (temp_of tempname st) text)]
              ++ logged (InfoConverting (temp_of tempname st) f
                                        (extension (format a))) (verbose a)
              ++ [Print (ErrChapter k FileNotFoundError)])))
  /\ (forall items st,
        (forall k, is_ok (render k) = true) ->
        fst (process_items' items 1 st) = Ok tt
        /\ said (trace (snd (process_items' items 1 st)))
           = said (trace st) ++ chapters clean_html items).
Proof.
  assert (Hquiet : forall k text st f v tail,
    failed_chapters tail = [] ->
    failed_chapters
      (trace st ++ logged (InfoProcessing k) v
       ++ [TempFile (temp_of tempname st);
           Run (say_argv (temp_of tempname st) text)]
       ++ logged (InfoConverting (temp_of tempname st) f
                                 (extension (format a))) v
       ++ tail)
    = failed_chapters (trace st)).
  { intros k text st f v tail Htail.
    rewrite !failed_chapters_app, Htail, !failed_chapters_logged by discriminate.
    simpl. now rewrite app_nil_r. }
  split; [exact chapter_returns|].
  split; [exact chapter_say_missing|].
  split; [exact chapter_say_fails|].
  split; [|split; [|split]].
  - intros k text st f o' options Hr Hsay Hopt Hff.
    rewrite (chapter_no_ffmpeg _ _ _ _ _ _ Hr Hsay Hopt Hff).
    split; [reflexivity|]. cbn [snd].
    rewrite failed_chapters_cleanup. now apply Hquiet.
  - intros k text st f o' o'' options rc Hr Hsay Hopt Hff Hrc.
    rewrite (chapter_ffmpeg_exit _ _ _ _ _ _ _ _ Hr Hsay Hopt Hff).
    destruct (Z.eqb_spec rc 0) as [|_]; [contradiction|].
    split; [reflexivity|]. cbn [snd].
    rewrite failed_chapters_cleanup. now apply Hquiet.
  - intros k text st f o' Hr Hsay Hopt Hgone.
    rewrite (chapter_aiff _ _ _ _ _ Hr Hsay Hopt).
    rewrite bool_decide_eq_false_2 by exact Hgone.
    now rewrite <- !app_assoc.
  - intros items st Hrender. rewrite process_items_run_chapters.
    assert (Hok : fst (run_chapters' (numbered 1 (chapters clean_html items)) st)
                  = Ok tt).
    { apply run_chapters_returns, Forall_forall. intros p _. apply Hrender. }
    split; [exact Hok|].
    destruct (run_chapters_trace _ _ Hok) as [_ ->]. now rewrite numbered_snd.
Qed.

End Run.

(** ** A whole book, and the run *)

Section Book.

Variable E : Type.
Variable clean_html : string -> string.
Variable read_epub : string -> os_state E -> result book.
Variable spawn : list string -> os_state E -> option (Z * os_state E).
Variable tempname : string -> os_state E -> string.
Variable extern_conv : ascii -> bool -> option N -> nat -> result string.

Local Abbreviation process_book' :=
  (process_book clean_html read_epub spawn tempname extern_conv).
Local Abbreviation for_files' :=
  (for_files clean_html read_epub spawn tempname extern_conv).

(** When the file name of the first chapter cannot be rendered, the
    exception leaves [process_book] with nothing done but the logging, and
    then leaves the loop over the input files. *)
Lemma process_book_render_raises (a : args) (b : book) (filepath : string)
      (rest : list string) (st : state E) (e : exn) :
  filepath ∈ paths (os st) ->
  read_epub filepath (os st) = Ok b ->
  chapters clean_html (get_items b) <> [] ->
  render_filename extern_conv (format a) (filename_format a)
                  (safe_name (identify_author a b))
                  (safe_name (identify_title a b)) 1 = Raise e ->
  process_book' filepath a st = (Raise e, extend st (preamble a b))
  /\ for_files' a (filepath :: rest) st
     = (Raise e,
        extend st (logged (InfoStarting filepath) (verbose a) ++ preamble a b)).
Proof.
  intros Hin Hread Hch Hr.
  assert (Hbook : forall st', os st' = os st ->
            process_book' filepath a st' = (Raise e, extend st' (preamble a b))).
  { intros st' Hos. rewrite (process_book_found _ _ _ _ _ _ _ _ b).
    2: now rewrite Hos. 2: now rewrite Hos.
    unfold bind at 1. rewrite log_extend. unfold bind at 1. rewrite log_extend.
    rewrite process_items_run_chapters.
    destruct (chapters clean_html (get_items b)) as [|text texts];
      [contradiction|].
    rewrite numbered_cons. cbn [run_chapters]. unfold bind.
    erewrite chapter_render_raises by exact Hr.
    unfold extend, preamble. cbn [os trace]. now rewrite <- !app_assoc. }
  split; [now apply Hbook|].
  cbn [for_files]. unfold bind at 1. rewrite log_extend.
  unfold bind. rewrite Hbook by reflexivity.
  unfold extend. cbn [os trace]. now rewrite <- !app_assoc.
Qed.

(** C8, amended: when neither the template nor the author and title put
    into it hold a percent sign, applying the chapter number raises
    [TypeError] (not all arguments converted) for the first chapter.  This
    happens before the temporary file is created and outside the [try] of
    the loop body: the exception leaves [process_book] and the loop over
    the input files, no program has been started, no file has been
    written, and the remaining chapters and input files are not
    processed. *)
Theorem missing_directive_aborts (a : args) (b : book) (filepath : string)
        (rest : list string) (st : state E) :
  filepath ∈ paths (os st) ->
  read_epub filepath (os st) = Ok b ->
  chapters clean_html (get_items b) <> [] ->
  Py.mem "%" (filename_format a) = false ->
  Py.mem "%" (identify_author a b) = false ->
  Py.mem "%" (identify_title a b) = false ->
  (forall k, render_filename extern_conv (format a) (filename_format a)
               (safe_name (identify_author a b))
               (safe_name (identify_title a b)) k = Raise TypeError)
  /\ process_book' filepath a st = (Raise TypeError, extend st (preamble a b))
  /\ for_files' a (filepath :: rest) st
     = (Raise TypeError,
        extend st (logged (InfoStarting filepath) (verbose a) ++ preamble a b)).
Proof.
  intros Hin Hread Hch Htpl Hau Hti.
  assert (Hr : forall k,
    render_filename extern_conv (format a) (filename_format a)
      (safe_name (identify_author a b)) (safe_name (identify_title a b)) k
    = Raise TypeError).
  { intros k. unfold render_filename.
    rewrite percent_without_directive; [reflexivity|].
    apply replace_avoids; [apply replace_avoids|].
    - exact Htpl.
    - now rewrite safe_name_keeps.
    - now rewrite safe_name_keeps. }
  split; [exact Hr|].
  now apply process_book_render_raises.
Qed.

(** C9: the author and the title are put into the template before the
    percent operator is applied, and sanitization keeps percent signs, so
    a percent sign of the author or title is read as the start of a
    directive.  With the default template, the author [100% Pure] makes
    the rendering raise [ValueError] for every chapter, and that exception
    leaves [process_book] and the loop over the input files, ending the
    document before any chapter is synthesized; the author [50%%] renders,
    but to a file name that no longer holds the author's text. *)
Theorem percent_in_names_is_interpreted :
  (forall s, Py.mem "%" (safe_name s) = Py.mem "%" s)
  /\ (forall fmt template safe_author safe_title k,
        render_filename extern_conv fmt template safe_author safe_title k
        = match
            Format.percent extern_conv
              (Py.replace (Py.replace template "${Author}" safe_author)
                          "${Title}" safe_title) k
          with
          | Raise e => Raise e
          | Ok name =>
              Ok (if Py.contains "${ext}" name
                  then Py.replace name "${ext}"
                                  (Py.strip_chars (extension fmt) ".")
                  else name +:+ extension fmt)
          end)
  /\ (forall fmt safe_title k,
        render_filename extern_conv fmt default_filename_format
                        (safe_name "100% Pure") safe_title k
        = Raise ValueError)
  /\ (forall (a : args) (b : book) (filepath : string) (rest : list string)
             (st : state E),
        author a = Some "100% Pure" ->
        filename_format a = default_filename_format ->
        filepath ∈ paths (os st) ->
        read_epub filepath (os st) = Ok b ->
        chapters clean_html (get_items b) <> [] ->
        process_book' filepath a st = (Raise ValueError, extend st (preamble a b))
        /\ for_files' a (filepath :: rest) st
           = (Raise ValueError,
              extend st (logged (InfoStarting filepath) (verbose a)
                         ++ preamble a b)))
  /\ render_filename extern_conv ".m4a" default_filename_format
                     (safe_name "50%%") "Dune" 7
     = Ok "50%-Dune - Chapter 07.m4a"
  /\ Py.contains "50%%" "50%-Dune - Chapter 07.m4a" = false.
Proof.
  split; [intros s; now apply safe_name_keeps|].
  split; [reflexivity|].
  assert (Hr : forall fmt safe_title k,
    render_filename extern_conv fmt default_filename_format
                    (safe_name "100% Pure") safe_title k
    = Raise ValueError) by reflexivity.
  split; [exact Hr|].
  split; [|split; reflexivity].
  intros a b filepath rest st Hau Htpl Hin Hread Hch.
  apply process_book_render_raises; try assumption.
  assert (identify_author a b = "100% Pure") as ->.
  { unfold identify_author. rewrite Hau. reflexivity. }
  rewrite Htpl. apply Hr.
Qed.

(** The temporary file of a chapter after the loop body: still there when
    [say] could not be started, gone when [say] succeeded. *)
Lemma temp_file_stays_when_say_missing (a : args)
      (safe_author safe_title : string) (k : nat) (text : string)
      (st : state E) (f : string) :
  render_filename extern_conv (format a) (filename_format a)
                  safe_author safe_title k = Ok f ->
  spawn (say_argv (temp_of tempname st) text) (with_temp tempname st) = None ->
  temp_of tempname st
  ∈ paths (os (snd (process_chapter spawn tempname extern_conv a safe_author
                                     safe_title k text st))).
Proof.
  intros Hr Hsay. erewrite chapter_say_missing by eassumption.
  unfold with_temp. simpl. apply elem_of_union_r. now apply elem_of_singleton.
Qed.

Lemma temp_file_gone_when_say_succeeds (a : args)
      (safe_author safe_title : string) (k : nat) (text : string)
      (st : state E) (f : string) (o' : os_state E) :
  render_filename extern_conv (format a) (filename_format a)
                  safe_author safe_title k = Ok f ->
  spawn (say_argv (temp_of tempname st) text) (with_temp tempname st)
    = Some (0%Z, o') ->
  temp_of tempname st
  ∉ paths (os (snd (process_chapter spawn tempname extern_conv a safe_author
                                     safe_title k text st))).
Proof.
  intros Hr Hsay.
  destruct (ffmpeg_options (extension (format a))) as [options|] eqn:Hopt.
  - destruct (spawn (ffmpeg_argv (temp_of tempname st) f options) o')
      as [[rc o'']|] eqn:Hff.
    + erewrite chapter_ffmpeg_exit by eassumption.
      match goal with |- context [cleanup ?t (mk_state ?o ?tr)] =>
        destruct (cleanup_shape _ t o tr) as (o3 & tail & -> & _ & _ & _ & H) end.
      exact H.
    + erewrite chapter_no_ffmpeg by eassumption.
      match goal with |- context [cleanup ?t (mk_state ?o ?tr)] =>
        destruct (cleanup_shape _ t o tr) as (o3 & tail & -> & _ & _ & _ & H) end.
      exact H.
  - erewrite chapter_aiff by eassumption.
    destruct (bool_decide (temp_of tempname st ∈ paths o')) eqn:Hin.
    + match goal with |- context [cleanup ?t (mk_state ?o ?tr)] =>
        destruct (cleanup_shape _ t o tr) as (o3 & tail & -> & _ & _ & _ & H) end.
      exact H.
    + now apply bool_decide_eq_false in Hin.
Qed.

(** C7, amended: [convert_audio] does nothing to the destination when the
    transcoder fails.  If [ffmpeg] cannot be started, the failure is
    reported and the operating-system state is untouched: the destination
    exists afterwards exactly if it existed before.  If [ffmpeg] exits
    with an error, the failure is reported and the state is the one the
    transcoder left: whatever it wrote at the destination stays.  In both
    cases [convert_audio] returns normally. *)
Theorem failed_conversion_leaves_destination_alone :
  (forall input_file output_file ext v options (st : state E),
      ffmpeg_options ext = Some options ->
      spawn (ffmpeg_argv input_file output_file options) (os st) = None ->
      convert_audio spawn input_file output_file ext v st
      = (Ok tt,
         extend st (logged (InfoConverting input_file output_file ext) v
                    ++ [Run (ffmpeg_argv input_file output_file options);
                        Print ErrNoFfmpeg]))
      /\ (output_file
          ∈ paths (os (snd (convert_audio spawn input_file output_file ext v st)))
          <-> output_file ∈ paths (os st)))
  /\ (forall input_file output_file ext v options (st : state E) rc o',
        ffmpeg_options ext = Some options ->
        spawn (ffmpeg_argv input_file output_file options) (os st)
          = Some (rc, o') ->
        rc <> 0%Z ->
        convert_audio spawn input_file output_file ext v st
        = (Ok tt,
           mk_state o'
             (trace st ++ logged (InfoConverting input_file output_file ext) v
              ++ [Run (ffmpeg_argv input_file output_file options);
                  Print (ErrConvert ext)]))
        /\ (output_file
            ∈ paths (os (snd (convert_audio spawn input_file output_file ext v st)))
            <-> output_file ∈ paths o')).
Proof.
  split.
  - intros input_file output_file ext v options st Hopt Hff.
    rewrite (convert_audio_no_ffmpeg _ _ _ _ _ _ _ _ Hopt Hff).
    split; reflexivity.
  - intros input_file output_file ext v options st rc o' Hopt Hff Hrc.
    rewrite (convert_audio_ffmpeg_exit _ _ _ _ _ _ _ _ _ _ Hopt Hff).
    destruct (Z.eqb_spec rc 0) as [|_]; [contradiction|].
    split; reflexivity.
Qed.

End Book.

(** ** The properties at work in the sample environment *)

Lemma filename_three_steps_witness :
  render_filename sample_conv "m4a" "${Title} %d" "A" "B" 12 = Ok "B 12.m4a".
Proof.
  rewrite (proj1 (filename_three_steps sample_conv) "m4a" "${Title} %d" "A" "B" 12).
  - reflexivity.
  - simpl. tauto.
Defined.

(** Three chapters, the second of which fails in [say]: the numbers run
    from 1 to 3 all the same. *)
Lemma chapters_numbered_in_order_witness :
  fst (sample_loop (fun k => k =? 2) (Some 0%Z)
                   (sample_args "mp3" default_filename_format true) 3) = Ok tt
  /\ announced (trace (snd (sample_loop (fun k => k =? 2) (Some 0%Z)
                   (sample_args "mp3" default_filename_format true) 3)))
     = [1; 2; 3]
  /\ failed_chapters (trace (snd (sample_loop (fun k => k =? 2) (Some 0%Z)
                   (sample_args "mp3" default_filename_format true) 3)))
     = [2].
Proof.
  assert (Hok : fst (sample_loop (fun k => k =? 2) (Some 0%Z)
                   (sample_args "mp3" default_filename_format true) 3) = Ok tt)
    by (vm_compute; reflexivity).
  split; [exact Hok|]. split; [|vm_compute; reflexivity].
  exact (proj1 (proj2 (proj2 (proj2 (proj2
    (chapters_numbered_in_order nat id (sample_spawn (fun k => k =? 2) (Some 0%Z))
       sample_tempname sample_conv
       (sample_args "mp3" default_filename_format true) "Frank Herbert" "Dune"
       (get_items (sample_book 3)) sample_state)))) Hok)).
Defined.

(** A short document taken out of the book leaves the run as it is; a
    book of a cover image and a short document leaves the state as it
    was; and in a run of the sample book every text handed to [say] has
    at least 100 characters. *)
Lemma short_items_make_no_chapter_witness :
  process_items id (sample_spawn (fun _ => false) (Some 0%Z)) sample_tempname
    sample_conv (sample_args "mp3" default_filename_format false)
    "Frank Herbert" "Dune"
    ([mk_item 1 "cover.jpg"]
       ++ mk_item ITEM_DOCUMENT "Copyright"
       :: [mk_item ITEM_DOCUMENT sample_text]) 1 sample_state
  = process_items id (sample_spawn (fun _ => false) (Some 0%Z)) sample_tempname
      sample_conv (sample_args "mp3" default_filename_format false)
      "Frank Herbert" "Dune"
      ([mk_item 1 "cover.jpg"] ++ [mk_item ITEM_DOCUMENT sample_text])
      1 sample_state
  /\ process_items id (sample_spawn (fun _ => false) (Some 0%Z)) sample_tempname
       sample_conv (sample_args "mp3" default_filename_format false)
       "Frank Herbert" "Dune"
       [mk_item 1 "cover.jpg"; mk_item ITEM_DOCUMENT "Copyright"] 1 sample_state
     = (Ok tt, sample_state)
  /\ Forall (fun text => 100 <= String.length text)
            (said (trace (snd (sample_loop (fun _ => false) (Some 0%Z)
                     (sample_args "mp3" default_filename_format false) 2)))).
Proof.
  split; [|split].
  - apply (proj1 (proj2
      (short_items_make_no_chapter nat id (sample_spawn (fun _ => false) (Some 0%Z))
         sample_tempname sample_conv
         (sample_args "mp3" default_filename_format false)
         "Frank Herbert" "Dune" []))).
    vm_compute. lia.
  - apply (proj1 (proj2 (proj2
      (short_items_make_no_chapter nat id (sample_spawn (fun _ => false) (Some 0%Z))
         sample_tempname sample_conv
         (sample_args "mp3" default_filename_format false)
         "Frank Herbert" "Dune"
         [mk_item 1 "cover.jpg"; mk_item ITEM_DOCUMENT "Copyright"])))).
    repeat constructor.
  - apply (proj2 (proj2 (proj2
      (short_items_make_no_chapter nat id (sample_spawn (fun _ => false) (Some 0%Z))
         sample_tempname sample_conv
         (sample_args "mp3" default_filename_format false)
         "Frank Herbert" "Dune" (get_items (sample_book 2)))))).
    constructor.
Defined.

(** C2, on the code: with [say] not installed, or exiting with status 1,
    the chapter's failure is reported and the run goes on, but the
    temporary file created for the chapter is still there at the end: the
    removal of lines 148 and 149 sits inside the [try] and is skipped. *)
Theorem temp_file_leaks_when_say_fails :
  fst (sample_run nothing_installed
                  (sample_args "mp3" default_filename_format false) 1) = Ok tt
  /\ trace (snd (sample_run nothing_installed
                  (sample_args "mp3" default_filename_format false) 1))
     = [TempFile "/tmp/tmp0.aiff";
        Run ["say"; "-o"; "/tmp/tmp0.aiff"; sample_text];
        Print (ErrChapter 1 FileNotFoundError)]
  /\ "/tmp/tmp0.aiff"
     ∈ paths (os (snd (sample_run nothing_installed
                  (sample_args "mp3" default_filename_format false) 1)))
  /\ trace (snd (sample_run (sample_spawn (fun _ => true) (Some 0%Z))
                  (sample_args "mp3" default_filename_format false) 1))
     = [TempFile "/tmp/tmp0.aiff";
        Run ["say"; "-o"; "/tmp/tmp0.aiff"; sample_text];
        Print (ErrChapter 1 (CalledProcessError 1))]
  /\ "/tmp/tmp0.aiff"
     ∈ paths (os (snd (sample_run (sample_spawn (fun _ => true) (Some 0%Z))
                  (sample_args "mp3" default_filename_format false) 1))).
Proof.
  repeat split; try (vm_compute; reflexivity);
    apply bool_decide_unpack; vm_compute; exact I.
Qed.

(** The claim of C3 fails for a conversion failure: [ffmpeg] exits with
    status 1 for the only chapter, and the one error line printed names
    the format, not the chapter. *)
Lemma conversion_failure_names_no_chapter :
  trace (snd (sample_run (sample_spawn (fun _ => false) (Some 1%Z))
                (sample_args "mp3" default_filename_format false) 1))
  = [TempFile "/tmp/tmp0.aiff";
     Run ["say"; "-o"; "/tmp/tmp0.aiff"; sample_text];
     Run ["ffmpeg"; "-y"; "-i"; "/tmp/tmp0.aiff"; "-ac"; "1"; "-libmp3lame";
          "-q:a"; "5"; "Frank Herbert-Dune - Chapter 01.mp3"];
     Print (ErrConvert ".mp3");
     Remove "/tmp/tmp0.aiff"]
  /\ failed_chapters
       (trace (snd (sample_run (sample_spawn (fun _ => false) (Some 1%Z))
                      (sample_args "mp3" default_filename_format false) 1)))
     = [].
Proof. split; vm_compute; reflexivity. Qed.

(** The cases of the theorem in the sample environment, for the first
    chapter: [say] not installed; [say] exiting with status 1; [ffmpeg]
    not installed; [ffmpeg] exiting with status 1; a move that fails
    because [say] left no file; and five chapters, the second of which
    fails in [say], all five handed to [say]. *)
Lemma failures_are_contained_witness :
  fst (process_chapter nothing_installed sample_tempname sample_conv
         (sample_args "mp3" default_filename_format false)
         "Frank Herbert" "Dune" 1 sample_text sample_state) = Ok tt
  /\ process_chapter nothing_installed sample_tempname sample_conv
       (sample_args "mp3" default_filename_format false)
       "Frank Herbert" "Dune" 1 sample_text sample_state
     = (Ok tt,
        mk_state (with_temp sample_tempname sample_state)
          [TempFile "/tmp/tmp0.aiff";
           Run (say_argv "/tmp/tmp0.aiff" sample_text);
           Print (ErrChapter 1 FileNotFoundError)])
  /\ process_chapter (sample_spawn (fun _ => true) None) sample_tempname
       sample_conv (sample_args "mp3" default_filename_format false)
       "Frank Herbert" "Dune" 1 sample_text sample_state
     = (Ok tt,
        mk_state (mk_os (paths (with_temp sample_tempname sample_state)) 1)
          [TempFile "/tmp/tmp0.aiff";
           Run (say_argv "/tmp/tmp0.aiff" sample_text);
           Print (ErrChapter 1 (CalledProcessError 1))])
  /\ failed_chapters
       (trace (snd (process_chapter (sample_spawn (fun _ => false) None)
                      sample_tempname sample_conv
                      (sample_args "mp3" default_filename_format false)
                      "Frank Herbert" "Dune" 1 sample_text sample_state)))
     = failed_chapters (trace sample_state)
  /\ failed_chapters
       (trace (snd (process_chapter (sample_spawn (fun _ => false) (Some 1%Z))
                      sample_tempname sample_conv
                      (sample_args "mp3" default_filename_format false)
                      "Frank Herbert" "Dune" 1 sample_text sample_state)))
     = failed_chapters (trace sample_state)
  /\ process_chapter forgetful_say sample_tempname sample_conv
       (sample_args "aiff" default_filename_format false)
       "Frank Herbert" "Dune" 1 sample_text sample_state
     = (Ok tt,
        mk_state (mk_os (paths (with_temp sample_tempname sample_state)
                           ∖ {["/tmp/tmp0.aiff"]}) 0)
          [TempFile "/tmp/tmp0.aiff";
           Run (say_argv "/tmp/tmp0.aiff" sample_text);
           Print (ErrChapter 1 FileNotFoundError)])
  /\ fst (sample_loop (fun k => k =? 2) (Some 0%Z)
            (sample_args "mp3" default_filename_format false) 5) = Ok tt
  /\ said (trace (snd (sample_loop (fun k => k =? 2) (Some 0%Z)
            (sample_args "mp3" default_filename_format false) 5)))
     = said (trace sample_state) ++ chapters id (get_items (sample_book 5)).
Proof.
  split; [|split; [|split; [|split; [|split; [|split]]]]].
  - refine (proj1
      (failures_are_contained nat id nothing_installed sample_tempname
         sample_conv (sample_args "mp3" default_filename_format false)
         "Frank Herbert" "Dune")
      1 sample_text sample_state "Frank Herbert-Dune - Chapter 01.mp3" _).
    vm_compute. reflexivity.
  - refine (proj1 (proj2
      (failures_are_contained nat id nothing_installed sample_tempname
         sample_conv (sample_args "mp3" default_filename_format false)
         "Frank Herbert" "Dune"))
      1 sample_text sample_state "Frank Herbert-Dune - Chapter 01.mp3" _ _);
      vm_compute; reflexivity.
  - refine (proj1 (proj2 (proj2
      (failures_are_contained nat id (sample_spawn (fun _ => true) None)
         sample_tempname sample_conv
         (sample_args "mp3" default_filename_format false)
         "Frank Herbert" "Dune")))
      1 sample_text sample_state "Frank Herbert-Dune - Chapter 01.mp3" 1%Z
      (mk_os (paths (with_temp sample_tempname sample_state)) 1) _ _ _);
      [vm_compute; reflexivity | reflexivity | discriminate].
  - refine (proj2 (proj1 (proj2 (proj2 (proj2
      (failures_are_contained nat id (sample_spawn (fun _ => false) None)
         sample_tempname sample_conv
         (sample_args "mp3" default_filename_format false)
         "Frank Herbert" "Dune"))))
      1 sample_text sample_state "Frank Herbert-Dune - Chapter 01.mp3"
      (mk_os (paths (with_temp sample_tempname sample_state)) 1)
      ["-ac"; "1"; "-libmp3lame"; "-q:a"; "5"] _ _ _ _));
      [vm_compute; reflexivity | reflexivity | reflexivity | reflexivity].
  - refine (proj2 (proj1 (proj2 (proj2 (proj2 (proj2
      (failures_are_contained nat id (sample_spawn (fun _ => false) (Some 1%Z))
         sample_tempname sample_conv
         (sample_args "mp3" default_filename_format false)
         "Frank Herbert" "Dune")))))
      1 sample_text sample_state "Frank Herbert-Dune - Chapter 01.mp3"
      (mk_os (paths (with_temp sample_tempname sample_state)) 1)
      (mk_os (paths (with_temp sample_tempname sample_state)
                ∪ {["Frank Herbert-Dune - Chapter 01.mp3"]}) 1)
      ["-ac"; "1"; "-libmp3lame"; "-q:a"; "5"] 1%Z _ _ _ _ _));
      [vm_compute; reflexivity | reflexivity | reflexivity | reflexivity
      | discriminate].
  - refine (proj1 (proj2 (proj2 (proj2 (proj2 (proj2
      (failures_are_contained nat id forgetful_say sample_tempname sample_conv
         (sample_args "aiff" default_filename_format false)
         "Frank Herbert" "Dune"))))))
      1 sample_text sample_state "Frank Herbert-Dune - Chapter 01.aiff"
      (mk_os (paths (with_temp sample_tempname sample_state)
                ∖ {["/tmp/tmp0.aiff"]}) 0) _ _ _ _);
      [vm_compute; reflexivity | reflexivity | reflexivity |].
    cbn [paths]. apply not_elem_of_difference. right.
    now apply elem_of_singleton.
  - apply (proj2 (proj2 (proj2 (proj2 (proj2 (proj2
      (failures_are_contained nat id (sample_spawn (fun k => k =? 2) (Some 0%Z))
         sample_tempname sample_conv
         (sample_args "mp3" default_filename_format false)
         "Frank Herbert" "Dune"))))))).
    intros k. vm_compute. reflexivity.
Defined.

(** The claim of C7 fails: after a failed conversion the destination
    exists, be it a file that was there before ([ffmpeg] missing) or what
    a failing [ffmpeg] wrote. *)
Lemma destination_exists_after_failed_conversion :
  trace (snd convert_without_ffmpeg)
  = [Run ["ffmpeg"; "-y"; "-i"; "/tmp/tmp0.aiff"; "-ac"; "1"; "-libmp3lame";
          "-q:a"; "5"; "Dune - Chapter 01.mp3"];
     Print ErrNoFfmpeg]
  /\ "Dune - Chapter 01.mp3" ∈ paths (os (snd convert_without_ffmpeg))
  /\ trace (snd convert_with_failing_ffmpeg)
     = [Run ["ffmpeg"; "-y"; "-i"; "/tmp/tmp0.aiff"; "-ac"; "1"; "-libmp3lame";
             "-q:a"; "5"; "Dune - Chapter 01.mp3"];
        Print (ErrConvert ".mp3")]
  /\ "Dune - Chapter 01.mp3" ∈ paths (os (snd convert_with_failing_ffmpeg)).
Proof.
  repeat split; try (vm_compute; reflexivity);
    apply bool_decide_unpack; vm_compute; exact I.
Qed.

Lemma failed_conversion_leaves_destination_alone_witness :
  ("Dune - Chapter 01.mp3" ∈ paths (os (snd convert_without_ffmpeg))
   <-> "Dune - Chapter 01.mp3"
       ∈ ({["/tmp/tmp0.aiff"; "Dune - Chapter 01.mp3"]} : gset string))
  /\ ("Dune - Chapter 01.mp3" ∈ paths (os (snd convert_with_failing_ffmpeg))
      <-> "Dune - Chapter 01.mp3"
          ∈ ({["/tmp/tmp0.aiff"]} ∪ {["Dune - Chapter 01.mp3"]} : gset string)).
Proof.
  split.
  - exact (proj2
      (proj1 (failed_conversion_leaves_destination_alone nat
                (sample_spawn (fun _ => false) None))
         "/tmp/tmp0.aiff" "Dune - Chapter 01.mp3" ".mp3" false
         ["-ac"; "1"; "-libmp3lame"; "-q:a"; "5"]
         (mk_state (mk_os {["/tmp/tmp0.aiff"; "Dune - Chapter 01.mp3"]} 0) [])
         eq_refl eq_refl)).
  - refine (proj2
      (proj2 (failed_conversion_leaves_destination_alone nat
                (sample_spawn (fun _ => false) (Some 1%Z)))
         "/tmp/tmp0.aiff" "Dune - Chapter 01.mp3" ".mp3" false
         ["-ac"; "1"; "-libmp3lame"; "-q:a"; "5"]
         (mk_state (mk_os {["/tmp/tmp0.aiff"]} 0) []) 1%Z
         (mk_os ({["/tmp/tmp0.aiff"]} ∪ {["Dune - Chapter 01.mp3"]}) 0)
         eq_refl eq_refl _)).
    discriminate.
Defined.

(** The claim of C8 fails: with a template that has no directive, the run
    of a book with two chapters ends with [TypeError] before anything is
    synthesized or written. *)
Lemma template_without_directive_ends_the_run :
  fst (sample_run (sample_spawn (fun _ => false) (Some 0%Z))
                  (sample_args "mp3" "Chapter.${ext}" false) 2)
  = Raise TypeError
  /\ trace (snd (sample_run (sample_spawn (fun _ => false) (Some 0%Z))
                  (sample_args "mp3" "Chapter.${ext}" false) 2)) = []
  /\ elements (paths (os (snd (sample_run (sample_spawn (fun _ => false) (Some 0%Z))
                  (sample_args "mp3" "Chapter.${ext}" false) 2))))
     = ["dune.epub"].
Proof. repeat split; vm_compute; reflexivity. Qed.

Lemma missing_directive_aborts_witness :
  for_files id (fun _ _ => Ok (sample_book 2))
            (sample_spawn (fun _ => false) (Some 0%Z)) sample_tempname
            sample_conv (sample_args ".mp3" "Chapter.${ext}" true)
            ["dune.epub"; "other.epub"] sample_state
  = (Raise TypeError,
     extend sample_state
       (logged (InfoStarting "dune.epub") true
        ++ preamble (sample_args ".mp3" "Chapter.${ext}" true) (sample_book 2))).
Proof.
  apply (missing_directive_aborts nat id (fun _ _ => Ok (sample_book 2))
           (sample_spawn (fun _ => false) (Some 0%Z)) sample_tempname
           sample_conv (sample_args ".mp3" "Chapter.${ext}" true)
           (sample_book 2) "dune.epub" ["other.epub"] sample_state).
  - now apply elem_of_singleton.
  - reflexivity.
  - vm_compute. discriminate.
  - reflexivity.
  - reflexivity.
  - reflexivity.
Defined.

Lemma percent_in_names_is_interpreted_witness :
  process_book id (fun _ _ => Ok (sample_book 2))
               (sample_spawn (fun _ => false) (Some 0%Z)) sample_tempname
               sample_conv "dune.epub"
               (mk_args ["dune.epub"] (Some "100% Pure") None ".m4a"
                        default_filename_format false)
               sample_state
  = (Raise ValueError,
     extend sample_state
       (preamble (mk_args ["dune.epub"] (Some "100% Pure") None ".m4a"
                          default_filename_format false)
                 (sample_book 2))).
Proof.
  refine (proj1 (proj1 (proj2 (proj2 (proj2
    (percent_in_names_is_interpreted nat id (fun _ _ => Ok (sample_book 2))
       (sample_spawn (fun _ => false) (Some 0%Z)) sample_tempname sample_conv))))
    (mk_args ["dune.epub"] (Some "100% Pure") None ".m4a"
             default_filename_format false)
    (sample_book 2) "dune.epub" [] sample_state _ _ _ _ _)).
  - reflexivity.
  - reflexivity.
  - now apply elem_of_singleton.
  - reflexivity.
  - vm_compute. discriminate.
Defined.

(** * Further properties of the script *)

(** ** Input files and the format option *)

Section Inputs.

Variable E : Type.
Variable clean_html : string -> string.
Variable read_epub : string -> os_state E -> result book.
Variable spawn : list string -> os_state E -> option (Z * os_state E).
Variable tempname : string -> os_state E -> string.
Variable extern_conv : ascii -> bool -> option N -> nat -> result string.

Local Abbreviation process_book' :=
  (process_book clean_html read_epub spawn tempname extern_conv).
Local Abbreviation for_files' :=
  (for_files clean_html read_epub spawn tempname extern_conv).
Local Abbreviation main' :=
  (main clean_html read_epub spawn tempname extern_conv).

Lemma process_book_missing (a : args) (filepath : string) (st : state E) :
  filepath ∉ paths (os st) ->
  process_book' filepath a st = (Ok tt, extend st [Print (ErrNoFile filepath)]).
Proof.
  intros Hout. unfold process_book, bind, os_path_exists.
  now rewrite bool_decide_eq_false_2 by exact Hout.
Qed.

Lemma process_book_unreadable (a : args) (filepath : string) (st : state E)
      (e : exn) :
  filepath ∈ paths (os st) ->
  read_epub filepath (os st) = Raise e ->
  process_book' filepath a st = (Ok tt, extend st [Print (ErrRead filepath e)]).
Proof.
  intros Hin Hread. unfold process_book, bind, os_path_exists.
  rewrite bool_decide_eq_true_2 by exact Hin. simpl. now rewrite Hread.
Qed.

(** X1: an input path that does not exist, or whose file cannot be parsed
    as an EPUB, is reported by one error line and skipped: nothing else
    happens for it, no exception is raised, and the run goes on with the
    remaining input files from an unchanged operating-system state. *)
Theorem bad_input_file_is_skipped (a : args) (filepath : string)
        (rest : list string) (st : state E) :
  (filepath ∉ paths (os st) ->
   process_book' filepath a st
   = (Ok tt, extend st [Print (ErrNoFile filepath)])
   /\ for_files' a (filepath :: rest) st
      = for_files' a rest
          (extend st (logged (InfoStarting filepath) (verbose a)
                      ++ [Print (ErrNoFile filepath)])))
  /\ (forall e,
        filepath ∈ paths (os st) ->
        read_epub filepath (os st) = Raise e ->
        process_book' filepath a st
        = (Ok tt, extend st [Print (ErrRead filepath e)])
        /\ for_files' a (filepath :: rest) st
           = for_files' a rest
               (extend st (logged (InfoStarting filepath) (verbose a)
                           ++ [Print (ErrRead filepath e)]))).
Proof.
  split.
  - intros Hout. split; [now apply process_book_missing|].
    cbn [for_files]. unfold bind at 1. rewrite log_extend.
    unfold bind. rewrite process_book_missing by exact Hout.
    unfold extend. cbn [os trace]. now rewrite <- app_assoc.
  - intros e Hin Hread. split; [now apply process_book_unreadable|].
    cbn [for_files]. unfold bind at 1. rewrite log_extend.
    unfold bind. rewrite (process_book_unreadable _ _ _ e) by assumption.
    unfold extend. cbn [os trace]. now rewrite <- app_assoc.
Qed.

(** The loop body reads the arguments only through the extension, the
    template and the verbose flag. *)
Lemma process_chapter_args (a a' : args) (safe_author safe_title : string)
      (k : nat) (text : string) (st : state E) :
  extension (format a) = extension (format a') ->
  filename_format a = filename_format a' ->
  verbose a = verbose a' ->
  process_chapter spawn tempname extern_conv a safe_author safe_title k text st
  = process_chapter spawn tempname extern_conv a' safe_author safe_title k text st.
Proof.
  intros Hext Htpl Hv. unfold process_chapter, render_filename.
  now rewrite Hext, Htpl, Hv.
Qed.

Lemma process_items_args (a a' : args) (safe_author safe_title : string)
      (items : list item) (k : nat) (st : state E) :
  extension (format a) = extension (format a') ->
  filename_format a = filename_format a' ->
  verbose a = verbose a' ->
  process_items clean_html spawn tempname extern_conv a safe_author safe_title
                items k st
  = process_items clean_html spawn tempname extern_conv a' safe_author
                  safe_title items k st.
Proof.
  intros Hext Htpl Hv. revert k st.
  induction items as [|it items IH]; intros k st; [reflexivity|].
  cbn [process_items].
  destruct (get_type it =? ITEM_DOCUMENT); [|apply IH].
  destruct (String.length (item_text clean_html it) <? 100); [apply IH|].
  unfold bind. rewrite (process_chapter_args a a') by assumption.
  destruct (process_chapter _ _ _ a' _ _ _ _ _) as [[[]|e] st']; [apply IH|].
  reflexivity.
Qed.

Lemma extension_dotted (fmt : string) :
  extension ("." +:+ fmt) = "." +:+ fmt.
Proof. unfold extension, Py.startswith. simpl. now destruct fmt. Qed.

Lemma extension_undotted (fmt : string) :
  Py.startswith fmt "." = false -> extension fmt = "." +:+ fmt.
Proof. intros H. unfold extension. now rewrite H. Qed.

(** X2: the leading dot of [--format] is optional.  For a format written
    without it, [process_book] and the whole run behave exactly as for the
    same format written with it, and this already holds for [process_book]
    alone, without the normalization of [main]; for each of the four
    formats the option accepts, the extension is dotted and selects either
    the move or a command line with its own encoder options. *)
Theorem format_dot_is_optional (a : args) (fmt : string) :
  Py.startswith fmt "." = false ->
  (forall filepath st,
      process_book' filepath (set_format fmt a) st
      = process_book' filepath (set_format ("." +:+ fmt) a) st)
  /\ (forall st,
        main' (set_format fmt a) st = main' (set_format ("." +:+ fmt) a) st)
  /\ (In fmt ["m4a"; "mp3"; "wav"; "aiff"] ->
      In (extension fmt) [".m4a"; ".mp3"; ".wav"; ".aiff"]
      /\ ffmpeg_options (extension fmt) <> Some []).
Proof.
  intros Hdot. split; [|split].
  - intros filepath st. unfold process_book, bind.
    destruct (os_path_exists filepath st) as [[found|e] st']; [|reflexivity].
    destruct (negb found); [reflexivity|].
    destruct (read_epub filepath (os st')) as [b|e]; [|reflexivity].
    cbn zeta.
    destruct (log (InfoAuthor _) _ st') as [[[]|e] st1]; [|reflexivity].
    destruct (log (InfoTitle _) _ st1) as [[[]|e] st2]; [|reflexivity].
    apply process_items_args; try reflexivity.
    cbn [format set_format]. now rewrite extension_dotted, extension_undotted.
  - intros st. unfold main, normalize_format. cbn [format set_format].
    assert (Py.startswith ("." +:+ fmt) "." = true) as ->
      by (unfold Py.startswith; simpl; now destruct fmt).
    rewrite Hdot. reflexivity.
  - intros Hin. simpl in Hin.
    repeat (destruct Hin as [<- | Hin];
            [split; [simpl; tauto | discriminate]|]).
    contradiction.
Qed.

End Inputs.

(** ** The encoder adapter *)

Section Conversion.

Variable E : Type.
Variable spawn : list string -> os_state E -> option (Z * os_state E).



End Conversion.

(** ** Sanitized names *)

Lemma remove_chars_app (chars s t : string) :
  Py.remove_chars chars (s +:+ t)
  = Py.remove_chars chars s +:+ Py.remove_chars chars t.
Proof.
  induction s as [|c s IH]; [reflexivity|]. simpl.
  destruct (Py.mem c chars); [exact IH | simpl; now rewrite IH].
Qed.

Lemma remove_chars_length (chars s : string) :
  String.length (Py.remove_chars chars s) <= String.length s.
Proof.
  induction s as [|c s IH]; [reflexivity|]. simpl.
  destruct (Py.mem c chars); simpl; lia.
Qed.

Lemma remove_chars_fixed (chars s : string) :
  (forall c, Py.mem c s = true -> Py.mem c chars = false) ->
  Py.remove_chars chars s = s.
Proof.
  induction s as [|a s IH]; intros H; [reflexivity|]. simpl.
  rewrite (H a) by (rewrite mem_cons, Ascii.eqb_refl; reflexivity).
  rewrite IH; [reflexivity|].
  intros c Hc. apply H. rewrite mem_cons, Hc. apply orb_true_r.
Qed.

(** X4: the sanitization of the author and of the title removes
    characters and does nothing else.  Sanitizing twice is sanitizing
    once; a name is left as it is exactly when it holds none of the nine
    characters; the result is never longer than the name; and the
    sanitized form of two texts put together is the two sanitized forms
    put together. *)
Theorem safe_name_properties (s t : string) :
  safe_name (safe_name s) = safe_name s
  /\ (safe_name s = s
      <-> forall c, Py.mem c s = true -> Py.mem c unsafe_chars = false)
  /\ String.length (safe_name s) <= String.length s
  /\ safe_name (s +:+ t) = safe_name s +:+ safe_name t.
Proof.
  assert (Hfix : forall u,
    (forall c, Py.mem c u = true -> Py.mem c unsafe_chars = false) ->
    safe_name u = u) by (intros u; apply remove_chars_fixed).
  split; [|split; [|split]].
  - apply Hfix. intros c Hc.
    destruct (Py.mem c unsafe_chars) eqn:Hu; [|reflexivity].
    rewrite (safe_name_clean s c Hu) in Hc. discriminate.
  - split; [|apply Hfix]. intros Heq c Hc.
    destruct (Py.mem c unsafe_chars) eqn:Hu; [|reflexivity].
    rewrite <- Heq, (safe_name_clean s c Hu) in Hc. discriminate.
  - apply remove_chars_length.
  - apply remove_chars_app.
Qed.

(** ** The same properties at work in the sample environment *)

Lemma bad_input_file_is_skipped_witness :
  process_book id (fun _ _ => Raise ValueError) nothing_installed
               sample_tempname sample_conv "missing.epub"
               (sample_args ".mp3" default_filename_format false) sample_state
  = (Ok tt, extend sample_state [Print (ErrNoFile "missing.epub")])
  /\ process_book id (fun _ _ => Raise ValueError) nothing_installed
                  sample_tempname sample_conv "dune.epub"
                  (sample_args ".mp3" default_filename_format false)
                  sample_state
     = (Ok tt, extend sample_state [Print (ErrRead "dune.epub" ValueError)]).
Proof.
  split.
  - refine (proj1 (proj1 (bad_input_file_is_skipped
                            nat id (fun _ _ => Raise ValueError)
                            nothing_installed sample_tempname sample_conv
                            (sample_args ".mp3" default_filename_format false)
                            "missing.epub" [] sample_state) _)).
    intros Hin. cbn [sample_state paths os] in Hin.
    apply elem_of_singleton in Hin. discriminate.
  - refine (proj1 (proj2 (bad_input_file_is_skipped
                            nat id (fun _ _ => Raise ValueError)
                            nothing_installed sample_tempname sample_conv
                            (sample_args ".mp3" default_filename_format false)
                            "dune.epub" [] sample_state) ValueError _ _)).
    + now apply elem_of_singleton.
    + reflexivity.
Defined.

Lemma format_dot_is_optional_witness :
  sample_run (sample_spawn (fun _ => false) (Some 0%Z))
             (sample_args "mp3" default_filename_format true) 2
  = sample_run (sample_spawn (fun _ => false) (Some 0%Z))
               (sample_args ".mp3" default_filename_format true) 2.
Proof.
  exact (proj1 (proj2 (format_dot_is_optional
                         nat id (fun _ _ => Ok (sample_book 2))
                         (sample_spawn (fun _ => false) (Some 0%Z))
                         sample_tempname sample_conv
                         (sample_args "mp3" default_filename_format true)
                         "mp3" eq_refl)) sample_state).
Defined.


Lemma safe_name_properties_witness :
  Py.mem "D" unsafe_chars = false /\ safe_name "A/B: C?" = "AB C".
Proof.
  split.
  - exact (proj1 (proj1 (proj2 (safe_name_properties "Jane Doe" "")))
                 eq_refl "D"%char eq_refl).
  - reflexivity.
Defined.

(** ** What a run adds to the trace *)

(** A property of lists of events that holds of no event and of two lists
    put together goes through the whole script once it holds of what the
    primitive operations add. *)
Section Traces.

Variable E : Type.
Variable Q : list event -> Prop.
Hypothesis Q_nil : Q [].
Hypothesis Q_app : forall e1 e2, Q e1 -> Q e2 -> Q (e1 ++ e2).

Lemma adds_still {A : Type} (m : M E A) :
  (forall st, snd (m st) = st) -> adds Q m.
Proof. intros H st. exists []. now rewrite H, app_nil_r. Qed.

Lemma adds_one {A : Type} (m : M E A) (ev : event) :
  Q [ev] ->
  (forall st, snd (m st) = st \/ trace (snd (m st)) = trace st ++ [ev]) ->
  adds Q m.
Proof.
  intros Hev H st. destruct (H st) as [->| ->].
  - exists []. now rewrite app_nil_r.
  - now exists [ev].
Qed.

Lemma adds_bind {A B : Type} (m : M E A) (k : A -> M E B) :
  adds Q m -> (forall x, adds Q (k x)) -> adds Q (bind m k).
Proof.
  intros Hm Hk st. unfold bind. destruct (Hm st) as (e1 & H1 & Q1).
  destruct (m st) as [[x|e] st1]; cbn [snd] in *.
  - destruct (Hk x st1) as (e2 & H2 & Q2). exists (e1 ++ e2).
    rewrite H2, H1, app_assoc. auto.
  - now exists e1.
Qed.

Lemma adds_try {A : Type} (m : M E A) (h : exn -> M E A) :
  adds Q m -> (forall e, adds Q (h e)) -> adds Q (try_except m h).
Proof.
  intros Hm Hh st. unfold try_except. destruct (Hm st) as (e1 & H1 & Q1).
  destruct (m st) as [[x|e] st1]; cbn [snd] in *.
  - now exists e1.
  - destruct (Hh e st1) as (e2 & H2 & Q2). exists (e1 ++ e2).
    rewrite H2, H1, app_assoc. auto.
Qed.

Lemma adds_emit (ev : event) : Q [ev] -> adds (E:=E) Q (emit ev).
Proof. intros H st. now exists [ev]. Qed.

Lemma adds_log (m : message) (v : bool) : Q (logged m v) -> adds (E:=E) Q (log m v).
Proof. intros H st. exists (logged m v). now rewrite log_extend. Qed.

Lemma adds_exists (path : string) : adds (E:=E) Q (os_path_exists path).
Proof. now apply adds_still. Qed.

Lemma adds_remove (path : string) : Q [Remove path] -> adds (E:=E) Q (os_remove path).
Proof.
  intros H. apply (adds_one _ _ H). intros st. unfold os_remove.
  destruct (bool_decide _); [right | left]; reflexivity.
Qed.

Lemma adds_move (src dst : string) :
  Q [Move src dst] -> adds (E:=E) Q (shutil_move src dst).
Proof.
  intros H. apply (adds_one _ _ H). intros st. unfold shutil_move.
  destruct (bool_decide _); [right | left]; reflexivity.
Qed.

Lemma adds_run (spawn : list string -> os_state E -> option (Z * os_state E))
      (argv : list string) :
  Q [Run argv] -> adds Q (subprocess_run spawn argv).
Proof.
  intros H. apply (adds_one _ _ H). intros st. right. unfold subprocess_run.
  now destruct (spawn argv (os st)) as [[rc o']|].
Qed.

Lemma adds_convert_audio
      (spawn : list string -> os_state E -> option (Z * os_state E))
      (input_file output_file ext : string) (v : bool) :
  Q (logged (InfoConverting input_file output_file ext) v) ->
  (forall options, Q [Run (ffmpeg_argv input_file output_file options)]) ->
  Q [Move input_file output_file] ->
  (forall m, is_info (Print m) = false -> Q [Print m]) ->
  adds Q (convert_audio spawn input_file output_file ext v).
Proof.
  intros Hlog Hrun Hmove Herr. unfold convert_audio.
  apply adds_bind; [now apply adds_log|]. intros _.
  destruct (ffmpeg_options ext) as [options|]; [|now apply adds_move].
  apply adds_try; [apply adds_run, Hrun|].
  intros e. destruct e; try (now apply adds_still);
    apply adds_emit, Herr; reflexivity.
Qed.

(** What follows the creation of the temporary file in the loop body. *)
Lemma adds_after_temp
      (spawn : list string -> os_state E -> option (Z * os_state E))
      (temp_aiff text final_filename ext : string) (v : bool) (k : nat) :
  Q [Run (say_argv temp_aiff text)] ->
  Q (logged (InfoConverting temp_aiff final_filename ext) v) ->
  (forall options, Q [Run (ffmpeg_argv temp_aiff final_filename options)]) ->
  Q [Move temp_aiff final_filename] ->
  Q [Remove temp_aiff] ->
  (forall m, is_info (Print m) = false -> Q [Print m]) ->
  adds Q (try_except
            (subprocess_run spawn ["say"; "-o"; temp_aiff; text] ;;
             convert_audio spawn temp_aiff final_filename ext v ;;
             still_there <- os_path_exists temp_aiff ;;
             if still_there then os_remove temp_aiff else ret tt)
            (fun e => print (ErrChapter k e))).
Proof.
  intros Hsay Hlog Hrun Hmove Hremove Herr.
  apply adds_try; [|intros e; apply adds_emit, Herr; reflexivity].
  apply adds_bind; [now apply adds_run|]. intros _.
  apply adds_bind; [now apply adds_convert_audio|]. intros _.
  apply adds_bind; [apply adds_exists|]. intros [|].
  - now apply adds_remove.
  - now apply adds_still.
Qed.

Variable clean_html : string -> string.
Variable read_epub : string -> os_state E -> result book.
Variable spawn : list string -> os_state E -> option (Z * os_state E).
Variable tempname : string -> os_state E -> string.
Variable extern_conv : ascii -> bool -> option N -> nat -> result string.

(** The loop body, for a property that no file name matters to. *)
Lemma adds_process_chapter (a : args) (safe_author safe_title : string)
      (k : nat) (text : string) :
  (forall m, Q (logged m (verbose a))) ->
  (forall name, Q [TempFile name]) ->
  (forall temp_aiff, Q [Run (say_argv temp_aiff text)]) ->
  (forall i o options, Q [Run (ffmpeg_argv i o options)]) ->
  (forall src dst, Q [Move src dst]) ->
  (forall path, Q [Remove path]) ->
  (forall m, is_info (Print m) = false -> Q [Print m]) ->
  adds Q (process_chapter spawn tempname extern_conv a safe_author safe_title
                          k text).
Proof.
  intros Hlog Htemp Hsay Hrun Hmove Hremove Herr. unfold process_chapter.
  apply adds_bind; [apply adds_log, Hlog|]. intros _.
  apply adds_bind; [now apply adds_still|]. intros final_filename.
  apply adds_bind.
  - intros st. eexists [_]. split; [reflexivity | apply Htemp].
  - intros temp_aiff. now apply adds_after_temp.
Qed.

(** The loops, for any property that the loop body has. *)
Lemma adds_process_items (a : args) (safe_author safe_title : string)
      (items : list item) (k : nat) :
  (forall k text,
      adds Q (process_chapter spawn tempname extern_conv a safe_author
                              safe_title k text)) ->
  adds Q (process_items clean_html spawn tempname extern_conv a safe_author
                        safe_title items k).
Proof.
  intros Hch. revert k. induction items as [|it items IH]; intros k.
  - now apply adds_still.
  - cbn [process_items]. destruct (get_type it =? ITEM_DOCUMENT); [|apply IH].
    destruct (String.length (item_text clean_html it) <? 100); [apply IH|].
    apply adds_bind; [apply Hch | intros _; apply IH].
Qed.

Lemma adds_process_book (a : args) (filepath : string) :
  (forall m, Q (logged m (verbose a))) ->
  (forall m, is_info (Print m) = false -> Q [Print m]) ->
  (forall safe_author safe_title k text,
      adds Q (process_chapter spawn tempname extern_conv a safe_author
                              safe_title k text)) ->
  adds Q (process_book clean_html read_epub spawn tempname extern_conv
                       filepath a).
Proof.
  intros Hlog Herr Hch. unfold process_book.
  apply adds_bind; [apply adds_exists|]. intros found.
  destruct (negb found); [apply adds_emit, Herr; reflexivity|].
  intros st. destruct (read_epub filepath (os st)) as [b|e].
  - revert st. apply adds_bind; [apply adds_log, Hlog|]. intros _.
    apply adds_bind; [apply adds_log, Hlog|]. intros _.
    apply adds_process_items. intros k text. apply Hch.
  - revert st. apply adds_emit, Herr. reflexivity.
Qed.

Lemma adds_main (a : args) :
  (forall m, Q (logged m (verbose a))) ->
  (forall m, is_info (Print m) = false -> Q [Print m]) ->
  (forall a' safe_author safe_title k text,
      verbose a' = verbose a ->
      adds Q (process_chapter spawn tempname extern_conv a' safe_author
                              safe_title k text)) ->
  adds Q (main clean_html read_epub spawn tempname extern_conv a).
Proof.
  intros Hlog Herr Hch. unfold main.
  assert (Hv : verbose (normalize_format a) = verbose a)
    by (unfold normalize_format; now destruct (Py.startswith _ _)).
  generalize (files (normalize_format a)). intros epub_files.
  induction epub_files as [|f epub_files IH]; [now apply adds_still|].
  cbn [for_files].
  apply adds_bind; [apply adds_log; rewrite Hv; apply Hlog|]. intros _.
  apply adds_bind; [|intros _; exact IH].
  apply adds_process_book.
  - intros m. rewrite Hv. apply Hlog.
  - exact Herr.
  - intros sa st k text. now apply Hch.
Qed.

End Traces.

(** ** Programs and files *)

Section Footprint.

Variable E : Type.
Variable clean_html : string -> string.
Variable read_epub : string -> os_state E -> result book.
Variable spawn : list string -> os_state E -> option (Z * os_state E).
Variable tempname : string -> os_state E -> string.
Variable extern_conv : ascii -> bool -> option N -> nat -> result string.

Local Abbreviation main' :=
  (main clean_html read_epub spawn tempname extern_conv).

(** X5: whatever the arguments, the books and the environment, a run
    starts no program but [say -o ...] and [ffmpeg -y -i ...]: every event
    it adds to the trace passes [expected_program]. *)
Theorem only_say_and_ffmpeg_are_started (a : args) (st : state E) :
  exists evs,
    trace (snd (main' a st)) = trace st ++ evs
    /\ Forall (fun ev => expected_program ev = true) evs.
Proof.
  revert st. change (adds (Forall (fun ev => expected_program ev = true))
                          (main' a)).
  apply adds_main.
  - constructor.
  - intros e1 e2 H1 H2. apply Forall_app. auto.
  - intros m. destruct (verbose a); repeat constructor.
  - intros m _. repeat constructor.
  - intros a' sa st k text _. apply adds_process_chapter.
    + constructor.
    + intros e1 e2 H1 H2. apply Forall_app. auto.
    + intros m. destruct (verbose a'); repeat constructor.
    + repeat constructor.
    + repeat constructor.
    + repeat constructor.
    + repeat constructor.
    + repeat constructor.
    + repeat constructor.
Qed.

Lemma own_temps_mono (made made' : list string) (evs : list event) :
  (forall x, x ∈ made -> x ∈ made') ->
  own_temps made evs = true -> own_temps made' evs = true.
Proof.
  revert made made'. induction evs as [|ev evs IH]; intros made made' Hsub;
    [reflexivity|].
  cbn [own_temps]. intros H. apply andb_prop in H as [H1 H2].
  apply andb_true_intro. split.
  - destruct (taken_away ev) as [path|]; [|reflexivity].
    apply bool_decide_eq_true_2, Hsub. now apply bool_decide_eq_true_1 in H1.
  - revert H2. apply IH. destruct (temp_name ev) as [name|]; [|exact Hsub].
    intros x Hx. apply elem_of_cons in Hx as [->|Hx].
    + apply list_elem_of_here.
    + apply list_elem_of_further, Hsub, Hx.
Qed.

Lemma own_temps_app (made : list string) (e1 e2 : list event) :
  own_temps made e1 = true -> own_temps made e2 = true ->
  own_temps made (e1 ++ e2) = true.
Proof.
  revert made. induction e1 as [|ev e1 IH]; intros made H1 H2; [exact H2|].
  cbn [own_temps app] in *. apply andb_prop in H1 as [H H1].
  rewrite H. cbn [andb]. apply IH; [exact H1|].
  destruct (temp_name ev) as [name|]; [|exact H2].
  revert H2. apply own_temps_mono. intros x Hx.
  now apply list_elem_of_further.
Qed.

Lemma own_temps_touch (temp_aiff : string) (made : list string)
      (evs : list event) :
  Forall (touches_only temp_aiff) evs -> temp_aiff ∈ made ->
  own_temps made evs = true.
Proof.
  intros Hall. revert made. induction Hall as [|ev evs Hev _ IH];
    intros made Hin; [reflexivity|].
  cbn [own_temps]. apply andb_true_intro. split.
  - unfold touches_only in Hev. destruct (taken_away ev) as [path|];
      [|reflexivity].
    subst path. now apply bool_decide_eq_true_2.
  - apply IH. destruct (temp_name ev); [|exact Hin].
    now apply list_elem_of_further.
Qed.

Lemma chapter_own_temps (a : args) (safe_author safe_title : string)
      (k : nat) (text : string) :
  adds (fun evs => own_temps [] evs = true)
       (process_chapter spawn tempname extern_conv a safe_author safe_title
                        k text).
Proof.
  intros st. unfold process_chapter, bind at 1. rewrite log_extend.
  unfold bind at 1, lift.
  destruct (render_filename _ _ _ _ _ _) as [final_filename|e].
  2:{ exists (logged (InfoProcessing k) (verbose a)).
      split; [reflexivity | now destruct (verbose a)]. }
  unfold bind at 1, NamedTemporaryFile.
  match goal with |- context [try_except ?m ?h ?s] =>
    destruct (adds_after_temp E
                (Forall (touches_only (tempname ".aiff" (os st))))
                (Forall_nil_2 _) (fun e1 e2 H1 H2 => Forall_app_2 _ e1 e2 H1 H2)
                spawn (tempname ".aiff" (os st)) text final_filename
                (extension (format a)) (verbose a) k) with s
      as (inner & Htrace & Hinner)
  end.
  - repeat constructor.
  - destruct (verbose a); repeat constructor.
  - repeat constructor.
  - repeat constructor.
  - repeat constructor.
  - intros m _. repeat constructor.
  - cbn [extend os trace] in *.
    exists (logged (InfoProcessing k) (verbose a)
            ++ TempFile (tempname ".aiff" (os st)) :: inner).
    split.
    + rewrite Htrace. cbn [trace]. now rewrite <- !app_assoc.
    + apply own_temps_app; [now destruct (verbose a)|].
      cbn [own_temps taken_away temp_name andb].
      apply (own_temps_touch _ _ _ Hinner), list_elem_of_here.
Qed.

(** X6: a run removes and moves away no file but its own temporary
    files: every path that an event of the run removes, or moves to
    another place, was created as a temporary file by an earlier event of
    the same run. *)
Theorem only_own_temporary_files_are_taken_away (a : args) (st : state E) :
  exists evs,
    trace (snd (main' a st)) = trace st ++ evs /\ own_temps [] evs = true.
Proof.
  revert st. change (adds (fun evs => own_temps [] evs = true) (main' a)).
  apply adds_main.
  - reflexivity.
  - apply own_temps_app.
  - intros m. now destruct (verbose a).
  - reflexivity.
  - intros a' sa st k text _. apply chapter_own_temps.
Qed.

End Footprint.

(** ** The verbose option *)

Section Verbosity.

Variable E : Type.

Lemma without_info_app (l1 l2 : list event) :
  without_info (l1 ++ l2) = without_info l1 ++ without_info l2.
Proof. apply List.filter_app. Qed.

Lemma without_info_fixed (evs : list event) :
  Forall (fun ev => is_info ev = false) evs -> without_info evs = evs.
Proof.
  induction 1 as [|ev evs Hev _ IH]; [reflexivity|].
  unfold without_info in *. cbn [List.filter]. now rewrite Hev, IH.
Qed.

Lemma same_but_info_refl (st : state E) : same_but_info st st.
Proof. now split. Qed.

Lemma same_but_info_extend (st st' : state E) (o : os_state E)
      (evs evs' : list event) :
  same_but_info st st' ->
  without_info evs = without_info evs' ->
  same_but_info (mk_state o (trace st ++ evs)) (mk_state o (trace st' ++ evs')).
Proof.
  intros [_ Htr] Hevs. split; [reflexivity|]. cbn [trace].
  now rewrite !without_info_app, Htr, Hevs.
Qed.

Lemma alike_bind {A B : Type} (m m' : M E A) (k k' : A -> M E B) :
  alike m m' -> (forall x, alike (k x) (k' x)) -> alike (bind m k) (bind m' k').
Proof.
  intros Hm Hk st st' R. unfold bind. destruct (Hm st st' R) as [Hf HR].
  destruct (m st) as [[x|e] s1], (m' st') as [[x'|e'] s1'];
    cbn [fst snd] in *; try discriminate.
  - injection Hf as <-. now apply Hk.
  - injection Hf as <-. now split.
Qed.

Lemma alike_try {A : Type} (m m' : M E A) (h h' : exn -> M E A) :
  alike m m' -> (forall e, alike (h e) (h' e)) ->
  alike (try_except m h) (try_except m' h').
Proof.
  intros Hm Hh st st' R. unfold try_except. destruct (Hm st st' R) as [Hf HR].
  destruct (m st) as [[x|e] s1], (m' st') as [[x'|e'] s1'];
    cbn [fst snd] in *; try discriminate.
  - injection Hf as <-. now split.
  - injection Hf as <-. now apply Hh.
Qed.

(** A computation that reads the operating system only, and adds to the
    trace the same events whatever the trace holds. *)
Lemma alike_step {A : Type} (m : M E A)
      (step : os_state E -> result A * os_state E * list event) :
  (forall st,
      m st = (fst (fst (step (os st))),
              mk_state (snd (fst (step (os st))))
                       (trace st ++ snd (step (os st))))) ->
  alike m m.
Proof.
  intros Hm st st' R. rewrite (Hm st), (Hm st'). destruct R as [Ho Htr].
  rewrite <- Ho. cbn [fst snd]. split; [reflexivity|].
  apply same_but_info_extend; [now split | reflexivity].
Qed.

Lemma state_eta (st : state E) : st = mk_state (os st) (trace st ++ []).
Proof. destruct st. cbn. now rewrite app_nil_r. Qed.

Lemma alike_ret {A : Type} (r : result A) : alike (E:=E) (lift r) (lift r).
Proof.
  apply (alike_step _ (fun o => (r, o, []))). intros st. cbn [fst snd].
  unfold lift. now rewrite <- state_eta.
Qed.

Lemma alike_emit (ev : event) : alike (E:=E) (emit ev) (emit ev).
Proof. now apply (alike_step _ (fun o => (Ok tt, o, [ev]))). Qed.

Lemma alike_exists (path : string) :
  alike (E:=E) (os_path_exists path) (os_path_exists path).
Proof.
  apply (alike_step _ (fun o => (Ok (bool_decide (path ∈ paths o)), o, []))).
  intros st. cbn [fst snd]. unfold os_path_exists. now rewrite <- state_eta.
Qed.

Lemma alike_remove (path : string) :
  alike (E:=E) (os_remove path) (os_remove path).
Proof.
  apply (alike_step _ (fun o =>
    if bool_decide (path ∈ paths o)
    then (Ok tt, mk_os (paths o ∖ {[path]}) (hidden o), [Remove path])
    else (Raise FileNotFoundError, o, []))).
  intros st. unfold os_remove. destruct (bool_decide _); cbn [fst snd].
  - reflexivity.
  - now rewrite <- state_eta.
Qed.

Lemma alike_move (src dst : string) :
  alike (E:=E) (shutil_move src dst) (shutil_move src dst).
Proof.
  apply (alike_step _ (fun o =>
    if bool_decide (src ∈ paths o)
    then (Ok tt, mk_os (paths o ∖ {[src]} ∪ {[dst]}) (hidden o), [Move src dst])
    else (Raise FileNotFoundError, o, []))).
  intros st. unfold shutil_move. destruct (bool_decide _); cbn [fst snd].
  - reflexivity.
  - now rewrite <- state_eta.
Qed.

Lemma alike_log (m : message) (v v' : bool) :
  is_info (Print m) = true -> alike (E:=E) (log m v) (log m v').
Proof.
  intros Hm st st' R. rewrite !log_extend. cbn [fst snd]. split; [reflexivity|].
  destruct R as [Ho Htr]. split; [exact Ho|]. unfold extend. cbn [trace].
  rewrite !without_info_app, Htr. f_equal.
  destruct v, v'; unfold logged, without_info; cbn [List.filter];
    rewrite ?Hm; reflexivity.
Qed.

Variable clean_html : string -> string.
Variable read_epub : string -> os_state E -> result book.
Variable spawn : list string -> os_state E -> option (Z * os_state E).
Variable tempname : string -> os_state E -> string.
Variable extern_conv : ascii -> bool -> option N -> nat -> result string.

Lemma alike_temp (suffix : string) :
  alike (NamedTemporaryFile tempname suffix) (NamedTemporaryFile tempname suffix).
Proof.
  now apply (alike_step _ (fun o =>
    (Ok (tempname suffix o),
     mk_os (paths o ∪ {[tempname suffix o]}) (hidden o),
     [TempFile (tempname suffix o)]))).
Qed.

Lemma alike_run (argv : list string) :
  alike (subprocess_run spawn argv) (subprocess_run spawn argv).
Proof.
  apply (alike_step _ (fun o =>
    match spawn argv o with
    | None => (Raise FileNotFoundError, o, [Run argv])
    | Some (rc, o') =>
        (if (rc =? 0)%Z then Ok tt else Raise (CalledProcessError rc), o',
         [Run argv])
    end)).
  intros st. unfold subprocess_run.
  now destruct (spawn argv (os st)) as [[rc o']|].
Qed.

Lemma alike_convert_audio (input_file output_file ext : string) (v v' : bool) :
  alike (convert_audio spawn input_file output_file ext v)
        (convert_audio spawn input_file output_file ext v').
Proof.
  unfold convert_audio. apply alike_bind; [now apply alike_log|]. intros _.
  destruct (ffmpeg_options ext) as [options|]; [|apply alike_move].
  apply alike_try; [apply alike_run|]. intros e.
  destruct e; try apply (alike_ret (Raise _)); apply alike_emit.
Qed.

Lemma alike_process_chapter (a : args) (v v' : bool)
      (safe_author safe_title : string) (k : nat) (text : string) :
  alike (process_chapter spawn tempname extern_conv (set_verbose v a)
                         safe_author safe_title k text)
        (process_chapter spawn tempname extern_conv (set_verbose v' a)
                         safe_author safe_title k text).
Proof.
  unfold process_chapter. cbn [set_verbose verbose format filename_format].
  apply alike_bind; [now apply alike_log|]. intros _.
  apply alike_bind; [apply alike_ret|]. intros final_filename.
  apply alike_bind; [apply alike_temp|]. intros temp_aiff.
  apply alike_try; [|intros e; apply alike_emit].
  apply alike_bind; [apply alike_run|]. intros _.
  apply alike_bind; [apply alike_convert_audio|]. intros _.
  apply alike_bind; [apply alike_exists|]. intros [|].
  - apply alike_remove.
  - apply (alike_ret (Ok tt)).
Qed.

Lemma alike_process_items (a : args) (v v' : bool)
      (safe_author safe_title : string) (items : list item) (k : nat) :
  alike (process_items clean_html spawn tempname extern_conv (set_verbose v a)
                       safe_author safe_title items k)
        (process_items clean_html spawn tempname extern_conv (set_verbose v' a)
                       safe_author safe_title items k).
Proof.
  revert k. induction items as [|it items IH]; intros k.
  - apply (alike_ret (Ok tt)).
  - cbn [process_items]. destruct (get_type it =? ITEM_DOCUMENT); [|apply IH].
    destruct (String.length (item_text clean_html it) <? 100); [apply IH|].
    apply alike_bind; [apply alike_process_chapter | intros _; apply IH].
Qed.

Lemma alike_process_book (a : args) (v v' : bool) (filepath : string) :
  alike (process_book clean_html read_epub spawn tempname extern_conv filepath
                      (set_verbose v a))
        (process_book clean_html read_epub spawn tempname extern_conv filepath
                      (set_verbose v' a)).
Proof.
  unfold process_book. apply alike_bind; [apply alike_exists|]. intros found.
  destruct (negb found); [apply alike_emit|].
  intros st st' R. rewrite <- (proj1 R).
  destruct (read_epub filepath (os st)) as [b|e].
  - revert st st' R. cbn [set_verbose verbose].
    apply alike_bind; [now apply alike_log|]. intros _.
    apply alike_bind; [now apply alike_log|]. intros _.
    apply alike_process_items.
  - revert st st' R. apply alike_emit.
Qed.

Lemma alike_main (a : args) (v v' : bool) :
  alike (main clean_html read_epub spawn tempname extern_conv (set_verbose v a))
        (main clean_html read_epub spawn tempname extern_conv (set_verbose v' a)).
Proof.
  unfold main.
  assert (Hn : forall w, normalize_format (set_verbose w a)
                         = set_verbose w (normalize_format a)).
  { intros w. unfold normalize_format. cbn [set_verbose format].
    now destruct (Py.startswith (format a) "."). }
  rewrite !Hn. cbn [set_verbose files].
  generalize (normalize_format a) (files (normalize_format a)).
  intros b epub_files.
  induction epub_files as [|f epub_files IH]; [apply (alike_ret (Ok tt))|].
  cbn [for_files]. apply alike_bind; [now apply alike_log|]. intros _.
  apply alike_bind; [apply alike_process_book | intros _; exact IH].
Qed.

(** X7: the verbose option changes nothing but the progress lines.  From
    the same state, the verbose run and the quiet run end with the same
    result and leave the same files, and the trace of the quiet run is the
    trace of the verbose run without its progress lines: the same
    programs are started and the same files made, moved and removed in
    the same order, and every error line is printed in both. *)
Theorem verbose_only_adds_progress_lines (a : args) (st : state E) :
  let loud :=
    main clean_html read_epub spawn tempname extern_conv (set_verbose true a) st in
  let quiet :=
    main clean_html read_epub spawn tempname extern_conv (set_verbose false a) st in
  fst loud = fst quiet
  /\ os (snd loud) = os (snd quiet)
  /\ exists evs,
       trace (snd loud) = trace st ++ evs
       /\ trace (snd quiet) = trace st ++ without_info evs.
Proof.
  intros loud quiet.
  destruct (alike_main a true false st st (same_but_info_refl st))
    as (Hres & Hos & Htrace).
  fold loud in Hres, Hos, Htrace. fold quiet in Hres, Hos, Htrace.
  split; [exact Hres|]. split; [exact Hos|].
  assert (Hloud : adds (fun _ => True)
            (main clean_html read_epub spawn tempname extern_conv
                  (set_verbose true a))).
  { apply adds_main; try easy. intros a' sa ti k text _.
    now apply adds_process_chapter. }
  assert (Hquiet : adds (Forall (fun ev => is_info ev = false))
            (main clean_html read_epub spawn tempname extern_conv
                  (set_verbose false a))).
  { apply adds_main.
    - constructor.
    - apply Forall_app_2.
    - intros m. constructor.
    - intros m Hm. now repeat constructor.
    - intros a' sa ti k text Hv. cbn [set_verbose verbose] in Hv.
      apply adds_process_chapter.
      + constructor.
      + apply Forall_app_2.
      + intros m. rewrite Hv. constructor.
      + repeat constructor.
      + repeat constructor.
      + repeat constructor.
      + repeat constructor.
      + repeat constructor.
      + intros m Hm. now repeat constructor. }
  destruct (Hloud st) as (evs & Hl & _).
  destruct (Hquiet st) as (evs' & Hq & Hall).
  fold loud in Hl. fold quiet in Hq.
  exists evs. split; [exact Hl|]. rewrite Hq. f_equal.
  rewrite Hl, Hq, !without_info_app in Htrace.
  apply app_inv_head in Htrace. rewrite Htrace.
  symmetry. now apply without_info_fixed.
Qed.

End Verbosity.

(** ** The default template *)

Section DefaultTemplate.

Variable extern_conv : ascii -> bool -> option N -> nat -> result string.

Lemma append_empty_r (s : string) : s +:+ "" = s.
Proof.
  induction s as [|a s IH]; [reflexivity|].
  change (String a (s +:+ "") = String a s). now rewrite IH.
Qed.

Lemma append_length (s t : string) :
  String.length (s +:+ t) = String.length s + String.length t.
Proof.
  induction s as [|a s IH]; [reflexivity|].
  change (S (String.length (s +:+ t)) = S (String.length s + String.length t)).
  now rewrite IH.
Qed.

Lemma append_cancel_r (s1 s2 t : string) : s1 +:+ t = s2 +:+ t -> s1 = s2.
Proof.
  intros H.
  assert (Hlen : String.length s1 = String.length s2).
  { apply (f_equal String.length) in H. rewrite !append_length in H. lia. }
  revert s2 H Hlen. induction s1 as [|a s1 IH]; intros [|b s2] H Hlen;
    try discriminate; [reflexivity|].
  change (String a (s1 +:+ t) = String b (s2 +:+ t)) in H.
  injection H as <- H. f_equal. apply IH; [exact H|].
  simpl in Hlen. lia.
Qed.

(** [replace] copies what comes before the first character of [old]. *)
Lemma replace_from_skip (c0 : ascii) (old' new s rest : string) :
  Py.mem c0 s = false ->
  Py.replace_from (String c0 old') new (s +:+ rest) 0
  = s +:+ Py.replace_from (String c0 old') new rest 0.
Proof.
  induction s as [|a s IH]; intros H; [reflexivity|].
  rewrite mem_cons in H. apply orb_false_elim in H as [Ha Hs].
  change (String a s +:+ rest) with (String a (s +:+ rest)).
  cbn [Py.replace_from String.prefix].
  destruct (ascii_dec c0 a) as [->|_];
    [rewrite Ascii.eqb_refl in Ha; discriminate|].
  now rewrite IH.
Qed.

Lemma contains_app_r (sub s rest : string) :
  Py.contains sub rest = true -> Py.contains sub (s +:+ rest) = true.
Proof.
  intros H. induction s as [|a s IH]; [exact H|].
  change (String a s +:+ rest) with (String a (s +:+ rest)).
  cbn [Py.contains]. rewrite IH. apply orb_true_r.
Qed.

(** The scan copies the text before the first percent sign. *)
Lemma scan_literal (have_arg : bool) (n : nat) (s rest : string) :
  Py.mem "%" s = false ->
  Format.scan extern_conv Format.PText have_arg n (s +:+ rest)
  = match Format.scan extern_conv Format.PText have_arg n rest with
    | Ok r => Ok (s +:+ r)
    | Raise e => Raise e
    end.
Proof.
  induction s as [|a s IH]; intros H.
  - change ("" +:+ rest) with rest. destruct (Format.scan extern_conv Format.PText have_arg n rest);
      reflexivity.
  - rewrite mem_cons in H. apply orb_false_elim in H as [Ha Hs].
    change (String a s +:+ rest) with (String a (s +:+ rest)).
    cbn [Format.scan Format.step]. rewrite Ascii.eqb_sym, Ha, (IH Hs).
    destruct (Format.scan extern_conv Format.PText have_arg n rest);
      reflexivity.
Qed.

(** [%02d] pads the decimal digits with zeros up to two characters. *)
Lemma output_02d (s : string) :
  Format.output (Format.mk_flags false false false false true) (Some 2%N) None
                "d" true s
  = Py.repeat_char "0" (2 - String.length s) +:+ s.
Proof.
  unfold Format.output.
  cbn [Format.F_ZERO Format.F_SIGN Format.F_BLANK Format.F_ALT Format.F_LJUST
       andb orb negb].
  change (N.to_nat 2) with 2.
  rewrite !andb_true_r.
  destruct (Nat.ltb_spec (String.length s) (2 `max` String.length s)) as [Hlt|Hge].
  - replace (2 `max` String.length s - String.length s)
      with (2 - String.length s) by lia.
    rewrite Nat.sub_diag.
    apply (eq_trans (y := Py.repeat_char "0" (2 - String.length s)
                          +:+ (s +:+ ""))); [reflexivity|].
    now rewrite append_empty_r.
  - replace (2 `max` String.length s - String.length s) with 0 by lia.
    replace (2 - String.length s) with 0 by lia.
    apply (eq_trans (y := s +:+ "")); [reflexivity | apply append_empty_r].
Qed.

Lemma scan_cons (st : Format.pstate) (have_arg : bool) (n : nat) (c : ascii)
      (s : string) :
  Format.scan extern_conv st have_arg n (String c s)
  = match Format.step extern_conv st have_arg n c with
    | Raise e => Raise e
    | Ok (st', have_arg', out) =>
        match Format.scan extern_conv st' have_arg' n s with
        | Raise e => Raise e
        | Ok rest => Ok (out +:+ rest)
        end
    end.
Proof. reflexivity. Qed.

Lemma scan_02d (n : nat) (rest : string) :
  Format.scan extern_conv Format.PText true n ("%02d" +:+ rest)
  = match Format.scan extern_conv Format.PText false n rest with
    | Ok r => Ok (two_digits n +:+ r)
    | Raise e => Raise e
    end.
Proof.
  unfold two_digits. rewrite <- output_02d.
  set (f := Format.mk_flags false false false false true).
  change ("%02d" +:+ rest)
    with (String "%" (String "0" (String "2" (String "d" rest)))).
  rewrite scan_cons.
  change (Format.step extern_conv Format.PText true n "%")
    with (Ok (A:=Format.pstate * bool * string) (Format.PStart, true, "")).
  cbv beta iota. rewrite scan_cons.
  change (Format.step extern_conv Format.PStart true n "0")
    with (Ok (A:=Format.pstate * bool * string) (Format.PFlags f, true, "")).
  cbv beta iota. rewrite scan_cons.
  change (Format.step extern_conv (Format.PFlags f) true n "2")
    with (Ok (A:=Format.pstate * bool * string) (Format.PWidth f 2%N, true, "")).
  cbv beta iota. rewrite scan_cons.
  change (Format.step extern_conv (Format.PWidth f 2%N) true n "d")
    with (Ok (A:=Format.pstate * bool * string)
             (Format.PText, false,
              Format.output f (Some 2%N) None "d" true (Py.str_of_nat n))).
  cbv beta iota.
  destruct (Format.scan extern_conv Format.PText false n rest); reflexivity.
Qed.

Lemma repeat_char_length (c : ascii) (k : nat) :
  String.length (Py.repeat_char c k) = k.
Proof. induction k as [|k IH]; [reflexivity|]. simpl. now rewrite IH. Qed.

Lemma repeat_char_avoids (c a : ascii) (k : nat) :
  Ascii.eqb c a = false -> Py.mem c (Py.repeat_char a k) = false.
Proof.
  intros H. induction k as [|k IH]; [reflexivity|].
  simpl. now rewrite mem_cons, H, IH.
Qed.

Lemma digits_without_dollar (d : Decimal.uint) :
  Py.mem "$" (NilEmpty.string_of_uint d) = false.
Proof. induction d; [reflexivity|..]; simpl; rewrite mem_cons; exact IHd. Qed.

Lemma two_digits_without_dollar (n : nat) : Py.mem "$" (two_digits n) = false.
Proof.
  unfold two_digits. rewrite mem_app, repeat_char_avoids by reflexivity.
  unfold Py.str_of_nat, NilZero.string_of_uint.
  destruct (Nat.to_uint n); try apply digits_without_dollar. reflexivity.
Qed.

Lemma render_default_template (fmt safe_author safe_title : string)
      (n : nat) :
  In fmt format_choices ->
  Py.mem "%" safe_author = false -> Py.mem "$" safe_author = false ->
  Py.mem "%" safe_title = false -> Py.mem "$" safe_title = false ->
  render_filename extern_conv fmt default_filename_format safe_author
                  safe_title n
  = Ok (default_name fmt safe_author safe_title n).
Proof.
  intros Hfmt Hpa Hda Hpt Hdt.
  assert (Hstrip : Py.strip_chars (extension fmt) "."
                   = without_leading_dot (extension fmt)).
  { simpl in Hfmt.
    repeat (destruct Hfmt as [<- | Hfmt]; [reflexivity|]). contradiction. }
  unfold render_filename, default_name. rewrite Hstrip.
  generalize (without_leading_dot (extension fmt)). intros ext.
  assert (H1 : Py.replace default_filename_format "${Author}" safe_author
               = safe_author +:+ "-${Title} - Chapter %02d.${ext}")
    by reflexivity.
  rewrite H1.
  assert (H2 : Py.replace (safe_author +:+ "-${Title} - Chapter %02d.${ext}")
                          "${Title}" safe_title
               = safe_author +:+ "-" +:+ safe_title
                 +:+ " - Chapter %02d.${ext}").
  { unfold Py.replace. rewrite replace_from_skip by exact Hda. reflexivity. }
  rewrite H2.
  assert (H3 : Format.percent extern_conv
                 (safe_author +:+ "-" +:+ safe_title
                  +:+ " - Chapter %02d.${ext}") n
               = Ok (safe_author +:+ "-" +:+ safe_title +:+ " - Chapter "
                     +:+ two_digits n +:+ ".${ext}")).
  { unfold Format.percent.
    rewrite (scan_literal true n safe_author) by exact Hpa.
    rewrite (scan_literal true n "-") by reflexivity.
    rewrite (scan_literal true n safe_title) by exact Hpt.
    change " - Chapter %02d.${ext}"
      with (" - Chapter " +:+ "%02d" +:+ ".${ext}").
    rewrite (scan_literal true n " - Chapter ") by reflexivity.
    rewrite scan_02d. reflexivity. }
  rewrite H3.
  assert (H4 : Py.contains "${ext}"
                 (safe_author +:+ "-" +:+ safe_title +:+ " - Chapter "
                  +:+ two_digits n +:+ ".${ext}") = true).
  { do 5 apply contains_app_r. reflexivity. }
  rewrite H4. f_equal. unfold Py.replace.
  rewrite replace_from_skip by exact Hda.
  rewrite (replace_from_skip _ _ _ "-") by reflexivity.
  rewrite replace_from_skip by exact Hdt.
  rewrite (replace_from_skip _ _ _ " - Chapter ") by reflexivity.
  rewrite replace_from_skip by apply two_digits_without_dollar.
  do 5 f_equal.
  apply (eq_trans (y := "." +:+ ext +:+ "")); [reflexivity|].
  now rewrite append_empty_r.
Qed.

(** X8: the file name that the default template gives.  For one of the
    formats the option accepts, and an author and a title that hold neither
    a percent sign nor a dollar sign, the name of chapter [n] is the
    author, a dash, the title, [ - Chapter ], the number in decimal padded
    with zeros to two digits, a dot and the format without its dot; it is
    rendered for every chapter number, and is never shorter than it is for
    the chapters 0 to 99. *)
Theorem default_template_file_name (fmt safe_author safe_title : string)
        (n : nat) :
  In fmt format_choices ->
  Py.mem "%" safe_author = false -> Py.mem "$" safe_author = false ->
  Py.mem "%" safe_title = false -> Py.mem "$" safe_title = false ->
  render_filename extern_conv fmt default_filename_format safe_author
                  safe_title n
  = Ok (default_name fmt safe_author safe_title n)
  /\ 2 <= String.length (two_digits n)
  /\ (n < 100 -> String.length (two_digits n) = 2).
Proof.
  intros Hfmt Hpa Hda Hpt Hdt.
  split; [now apply render_default_template|].
  unfold two_digits. rewrite append_length, repeat_char_length.
  split; [lia|]. intros Hn.
  assert (Hlen : String.length (Py.str_of_nat n) <= 2); [|lia].
  do 100 (destruct n as [|n]; [vm_compute; lia|]). lia.
Qed.

Lemma of_uint_D0 (d : Decimal.uint) :
  Nat.of_uint (Decimal.D0 d) = Nat.of_uint d.
Proof. reflexivity. Qed.

Lemma uint_of_zeros (k : nat) (s : string) (d : Decimal.uint) :
  NilEmpty.uint_of_string s = Some d ->
  exists d',
    NilEmpty.uint_of_string (Py.repeat_char "0" k +:+ s) = Some d'
    /\ Nat.of_uint d' = Nat.of_uint d.
Proof.
  intros H. induction k as [|k (d' & Hd' & Heq)]; [now exists d|].
  exists (Decimal.D0 d'). split.
  - change (Py.repeat_char "0" (S k) +:+ s)
      with (String "0" (Py.repeat_char "0" k +:+ s)).
    cbn [NilEmpty.uint_of_string]. now rewrite Hd'.
  - now rewrite of_uint_D0.
Qed.

Lemma to_uint_not_nil (n : nat) : Nat.to_uint n <> Decimal.Nil.
Proof.
  rewrite <- (DecimalNat.Unsigned.of_to n) at 1.
  rewrite DecimalNat.Unsigned.to_of. apply DecimalFacts.unorm_nonnil.
Qed.

(** The digits that [%02d] writes spell the chapter number. *)
Lemma two_digits_spell (n : nat) : nat_of_digits (two_digits n) = Some n.
Proof.
  unfold nat_of_digits, two_digits.
  assert (Hstr : NilEmpty.uint_of_string (Py.str_of_nat n)
                 = Some (Nat.to_uint n)).
  { unfold Py.str_of_nat, NilZero.string_of_uint.
    generalize (to_uint_not_nil n).
    destruct (Nat.to_uint n) eqn:Hd; intros Hnil;
      [now destruct Hnil|..]; rewrite <- Hd; apply NilEmpty.usu. }
  destruct (uint_of_zeros (2 - String.length (Py.str_of_nat n)) _ _ Hstr)
    as (d' & Hd' & Heq).
  assert (Hz : forall k,
             NilZero.uint_of_string (Py.repeat_char "0" k +:+ Py.str_of_nat n)
             = NilEmpty.uint_of_string
                 (Py.repeat_char "0" k +:+ Py.str_of_nat n)).
  { intros [|k]; [|reflexivity]. change ("" +:+ Py.str_of_nat n)
      with (Py.str_of_nat n).
    revert Hstr. destruct (Py.str_of_nat n); [|reflexivity].
    cbn. intros [= Hnil]. symmetry in Hnil.
    now apply to_uint_not_nil in Hnil. }
  rewrite Hz, Hd', Heq. now rewrite DecimalNat.Unsigned.of_to.
Qed.

Lemma default_name_chapter (fmt safe_author safe_title : string) (n m : nat) :
  default_name fmt safe_author safe_title n
  = default_name fmt safe_author safe_title m ->
  n = m.
Proof.
  unfold default_name. intros H.
  apply String.app_inj in H. apply (String.app_inj "-") in H.
  apply String.app_inj in H. apply (String.app_inj " - Chapter ") in H.
  apply append_cancel_r in H.
  assert (Hs : Some n = Some m) by now rewrite <- !two_digits_spell, H.
  now injection Hs.
Qed.

(** X9: with the default template, the chapters of a book never share a
    file name.  Under the conditions of the closed form, two chapter
    numbers give the same file name only if they are the same number, and
    the chapter number can be read back from the digits that [%02d]
    writes. *)
Theorem default_template_names_do_not_collide
        (fmt safe_author safe_title : string) (n m : nat) :
  In fmt format_choices ->
  Py.mem "%" safe_author = false -> Py.mem "$" safe_author = false ->
  Py.mem "%" safe_title = false -> Py.mem "$" safe_title = false ->
  (render_filename extern_conv fmt default_filename_format safe_author
                   safe_title n
   = render_filename extern_conv fmt default_filename_format safe_author
                     safe_title m
   <-> n = m)
  /\ nat_of_digits (two_digits n) = Some n.
Proof.
  intros Hfmt Hpa Hda Hpt Hdt. split; [|apply two_digits_spell].
  rewrite !render_default_template by assumption.
  split; [|now intros ->].
  intros H. injection H as H. revert H. apply default_name_chapter.
Qed.

End DefaultTemplate.

(** ** Where a run can end early *)

Section Exceptions.

Variable E : Type.
Variable clean_html : string -> string.
Variable read_epub : string -> os_state E -> result book.
Variable spawn : list string -> os_state E -> option (Z * os_state E).
Variable tempname : string -> os_state E -> string.
Variable extern_conv : ascii -> bool -> option N -> nat -> result string.





End Exceptions.

(** ** The chapter number in the template *)

Section Directives.

Variable extern_conv : ascii -> bool -> option N -> nat -> result string.

Lemma scan_text (n : nat) (s : string) :
  Py.mem "%" s = false ->
  Format.scan extern_conv Format.PText false n s = Ok s.
Proof.
  induction s as [|a s IH]; intros H; [reflexivity|].
  rewrite mem_cons in H. apply orb_false_elim in H as [Ha Hs].
  cbn [Format.scan Format.step]. now rewrite Ascii.eqb_sym, Ha, (IH Hs).
Qed.

Lemma output_d (s : string) :
  Format.output Format.no_flags None None "d" true s = s.
Proof.
  unfold Format.output.
  cbn [Format.no_flags Format.F_ZERO Format.F_SIGN Format.F_BLANK Format.F_ALT
       Format.F_LJUST andb orb negb].
  rewrite Nat.max_0_l, Nat.ltb_irrefl. cbn [andb]. rewrite Nat.sub_diag.
  apply (eq_trans (y := s +:+ "")); [reflexivity | apply append_empty_r].
Qed.

Lemma scan_d (n : nat) (rest : string) :
  Format.scan extern_conv Format.PText true n ("%d" +:+ rest)
  = match Format.scan extern_conv Format.PText false n rest with
    | Ok r => Ok (Py.str_of_nat n +:+ r)
    | Raise e => Raise e
    end.
Proof.
  rewrite <- (output_d (Py.str_of_nat n)).
  change ("%d" +:+ rest) with (String "%" (String "d" rest)).
  rewrite scan_cons.
  change (Format.step extern_conv Format.PText true n "%")
    with (Ok (A:=Format.pstate * bool * string) (Format.PStart, true, "")).
  cbv beta iota. rewrite scan_cons.
  change (Format.step extern_conv Format.PStart true n "d")
    with (Ok (A:=Format.pstate * bool * string)
             (Format.PText, false,
              Format.output Format.no_flags None None "d" true
                            (Py.str_of_nat n))).
  cbv beta iota.
  destruct (Format.scan extern_conv Format.PText false n rest); reflexivity.
Qed.

Lemma scan_d_again (n : nat) (rest : string) :
  Format.scan extern_conv Format.PText false n ("%d" +:+ rest)
  = Raise TypeError.
Proof. reflexivity. Qed.

Lemma scan_doubled (have_arg : bool) (n : nat) (rest : string) :
  Format.scan extern_conv Format.PText have_arg n ("%%" +:+ rest)
  = match Format.scan extern_conv Format.PText have_arg n rest with
    | Ok r => Ok ("%" +:+ r)
    | Raise e => Raise e
    end.
Proof.
  change ("%%" +:+ rest) with (String "%" (String "%" rest)).
  rewrite scan_cons.
  change (Format.step extern_conv Format.PText have_arg n "%")
    with (Ok (A:=Format.pstate * bool * string) (Format.PStart, have_arg, "")).
  cbv beta iota. rewrite scan_cons.
  change (Format.step extern_conv Format.PStart have_arg n "%")
    with (Ok (A:=Format.pstate * bool * string) (Format.PText, have_arg, "%")).
  cbv beta iota.
  destruct (Format.scan extern_conv Format.PText have_arg n rest); reflexivity.
Qed.

(** X11: a template takes the chapter number exactly once.  With one [%d]
    between texts without a percent sign, the operator writes the texts
    and the decimal digits of the number in its place; a second [%d]
    raises [TypeError], whatever follows it; and a doubled percent sign
    writes one percent sign and takes no number. *)
Theorem template_takes_the_number_once (pre mid post : string) (n : nat) :
  Py.mem "%" pre = false ->
  Py.mem "%" mid = false ->
  (Py.mem "%" post = false ->
   Format.percent extern_conv (pre +:+ "%d" +:+ post) n
   = Ok (pre +:+ Py.str_of_nat n +:+ post))
  /\ Format.percent extern_conv (pre +:+ "%d" +:+ mid +:+ "%d" +:+ post) n
     = Raise TypeError
  /\ (Py.mem "%" post = false ->
      Format.percent extern_conv (pre +:+ "%%" +:+ mid +:+ "%d" +:+ post) n
      = Ok (pre +:+ "%" +:+ mid +:+ Py.str_of_nat n +:+ post)).
Proof.
  intros Hpre Hmid. unfold Format.percent. split; [|split].
  - intros Hpost.
    now rewrite (scan_literal _ true n pre) by exact Hpre;
      rewrite scan_d, scan_text by exact Hpost.
  - rewrite (scan_literal _ true n pre) by exact Hpre.
    rewrite scan_d.
    rewrite (scan_literal _ false n mid) by exact Hmid.
    now rewrite scan_d_again.
  - intros Hpost.
    rewrite (scan_literal _ true n pre) by exact Hpre.
    rewrite scan_doubled.
    rewrite (scan_literal _ true n mid) by exact Hmid.
    now rewrite scan_d, scan_text by exact Hpost.
Qed.

End Directives.

(** ** In the sample environment *)

Lemma default_template_file_name_witness :
  render_filename sample_conv "mp3" default_filename_format
                  "Frank Herbert" "Dune" 7
  = Ok "Frank Herbert-Dune - Chapter 07.mp3".
Proof.
  refine (proj1 (default_template_file_name
                   sample_conv "mp3" "Frank Herbert" "Dune" 7
                   _ eq_refl eq_refl eq_refl eq_refl)).
  simpl. tauto.
Defined.

Lemma default_template_names_do_not_collide_witness :
  (render_filename sample_conv ".m4a" default_filename_format
                   "Frank Herbert" "Dune" 1
   = render_filename sample_conv ".m4a" default_filename_format
                     "Frank Herbert" "Dune" 2
   <-> 1 = 2)
  /\ nat_of_digits (two_digits 1) = Some 1.
Proof.
  refine (default_template_names_do_not_collide
            sample_conv ".m4a" "Frank Herbert" "Dune" 1 2
            _ eq_refl eq_refl eq_refl eq_refl).
  simpl. tauto.
Defined.


Lemma template_takes_the_number_once_witness :
  Format.percent sample_conv "Ch%d.mp3" 7 = Ok "Ch7.mp3"
  /\ Format.percent sample_conv "Ch%d of %d.mp3" 7 = Raise TypeError.
Proof.
  split.
  - exact (proj1 (template_takes_the_number_once
                    sample_conv "Ch" " of " ".mp3" 7 eq_refl eq_refl) eq_refl).
  - exact (proj1 (proj2 (template_takes_the_number_once
                           sample_conv "Ch" " of " ".mp3" 7 eq_refl eq_refl))).
Defined.

(** ** Trimming and the threshold of 100 characters *)

Section Trimming.

Variable p : ascii -> bool.

Lemma lstrip_length (s : string) :
  String.length (Py.lstrip p s) <= String.length s.
Proof.
  induction s as [|a s IH]; [reflexivity|]. simpl.
  destruct (p a); simpl; lia.
Qed.

Lemma rstrip_length (s : string) :
  String.length (Py.rstrip p s) <= String.length s.
Proof.
  induction s as [|a s IH]; [reflexivity|]. simpl.
  destruct (Py.rstrip p s); destruct (p a); simpl in *; lia.
Qed.

Lemma lstrip_all (s : string) :
  (forall c, Py.mem c s = true -> p c = true) -> Py.lstrip p s = "".
Proof.
  induction s as [|a s IH]; intros H; [reflexivity|]. simpl.
  rewrite (H a) by (rewrite mem_cons, Ascii.eqb_refl; reflexivity).
  apply IH. intros c Hc. apply H. rewrite mem_cons, Hc. apply orb_true_r.
Qed.

Lemma rstrip_again (s : string) :
  Py.rstrip p (Py.rstrip p s) = Py.rstrip p s.
Proof.
  induction s as [|a s IH]; [reflexivity|]. simpl.
  destruct (Py.rstrip p s) as [|d r] eqn:Hr.
  - destruct (p a) eqn:Ha; [reflexivity|]. simpl. now rewrite Ha.
  - cbn [Py.rstrip]. cbn [Py.rstrip] in IH. now rewrite IH.
Qed.

Lemma lstrip_starts (s : string) :
  match Py.lstrip p s with
  | EmptyString => True
  | String c _ => p c = false
  end.
Proof.
  induction s as [|a s IH]; [exact I|]. simpl.
  destruct (p a) eqn:Ha; [exact IH | exact Ha].
Qed.

Lemma lstrip_rstrip (t : string) :
  match t with EmptyString => True | String c _ => p c = false end ->
  Py.lstrip p (Py.rstrip p t) = Py.rstrip p t.
Proof.
  destruct t as [|c t]; [reflexivity|]. intros Hc. simpl.
  destruct (Py.rstrip p t); rewrite ?Hc; simpl; now rewrite Hc.
Qed.

Lemma strip_with_again (s : string) :
  Py.strip_with p (Py.strip_with p s) = Py.strip_with p s.
Proof.
  unfold Py.strip_with.
  rewrite (lstrip_rstrip _ (lstrip_starts s)). apply rstrip_again.
Qed.

End Trimming.

(** X12: trimming only takes characters away, so the threshold of line
    122 is never passed by what was trimmed.  The text of an item is not
    longer than what [clean_html] extracted; an item that becomes a
    chapter has at least 100 extracted characters; an item whose
    extracted text is white space only has the empty text and is no
    chapter, however long it is; and trimming the text again changes
    nothing. *)
Theorem trimming_and_the_threshold (clean_html : string -> string)
        (it : item) :
  String.length (item_text clean_html it)
  <= String.length (clean_html (get_content it))
  /\ (is_chapter clean_html it = true ->
      100 <= String.length (clean_html (get_content it)))
  /\ ((forall c, Py.mem c (clean_html (get_content it)) = true ->
                 Py.isspace c = true) ->
      item_text clean_html it = "" /\ is_chapter clean_html it = false)
  /\ Py.strip (item_text clean_html it) = item_text clean_html it.
Proof.
  assert (Hlen : String.length (item_text clean_html it)
                 <= String.length (clean_html (get_content it))).
  { unfold item_text, Py.strip, Py.strip_with.
    etransitivity; [apply rstrip_length | apply lstrip_length]. }
  split; [exact Hlen|]. split; [|split].
  - unfold is_chapter. intros H. apply andb_prop in H as [_ H].
    apply negb_true_iff, Nat.ltb_ge in H. lia.
  - intros Hall.
    assert (Hempty : item_text clean_html it = "").
    { unfold item_text, Py.strip, Py.strip_with.
      now rewrite lstrip_all by exact Hall. }
    split; [exact Hempty|]. unfold is_chapter. rewrite Hempty.
    apply andb_false_r.
  - unfold item_text, Py.strip. apply strip_with_again.
Qed.

Lemma trimming_and_the_threshold_witness :
  item_text id (mk_item ITEM_DOCUMENT "    ") = ""
  /\ is_chapter id (mk_item ITEM_DOCUMENT "    ") = false.
Proof.
  refine (proj1 (proj2 (proj2 (trimming_and_the_threshold
                                  id (mk_item ITEM_DOCUMENT "    ")))) _).
  intros c. unfold id. cbn [get_content]. rewrite !mem_cons.
  destruct (Ascii.eqb c " ") eqn:Hc.
  - intros _. apply Ascii.eqb_eq in Hc. subst c. reflexivity.
  - cbn [orb]. unfold Py.mem. cbn [list_ascii_of_string existsb].
    discriminate.
Defined.
